(** * go-pray: the prayer-time notifier [check_prayer_times.py]

    A shallow embedding of the script and the properties of its
    specification.  The script fetches the five daily prayer times from a
    timings API, compares them with the wall clock and posts at most one
    push notification.

    Layout: the Python values and built-ins the script relies on, the
    effects of the script (console, network, exceptions) as a small
    state-and-error monad, the three functions of the script, and then the
    properties. *)

From Stdlib Require Import ZArith List String Ascii Bool Lia.
From Stdlib Require Import Floats.
Import ListNotations.

Set Warnings "-register-all".

Open Scope string_scope.
Open Scope Z_scope.

(** ** Python values *)

(** The values [response.json()] can produce, and the request bodies the
    script builds.  A [dict] keeps its items in insertion order. *)
Inductive pyval : Type :=
| VNone
| VBool (b : bool)
| VInt (z : Z)
| VFloat (f : float)
| VStr (s : string)
| VList (l : list pyval)
| VDict (d : list (string * pyval)).

Definition dict : Type := list (string * pyval).

(** The exceptions that can arise in the script.  [SystemExit] is the only
    one that is not a subclass of [Exception]. *)
Inductive exn : Type :=
| KeyError (key : string)
| TypeError
| ValueError
| AttributeError
| JSONDecodeError
| HTTPError (status : Z)
| Timeout
| ConnectionError
| RequestException
| SystemExit (code : Z).

Definition is_Exception (x : exn) : bool :=
  match x with
  | SystemExit _ => false
  | _ => true
  end.

Module Py.

(** [d[key]] on a dict: the first item under [key]. *)
Fixpoint dict_get (d : dict) (key : string) : option pyval :=
  match d with
  | [] => None
  | (k, v) :: d' => if String.eqb k key then Some v else dict_get d' key
  end.

(** [d[key] = v]: a key already present keeps its position. *)
Fixpoint dict_set (d : dict) (key : string) (v : pyval) : dict :=
  match d with
  | [] => [(key, v)]
  | (k, v0) :: d' =>
      if String.eqb k key then (k, v) :: d' else (k, v0) :: dict_set d' key v
  end.

(** A dict display [{k1: v1, ..., kn: vn}]: the items are inserted from
    left to right into an empty dict. *)
Definition dict_display (items : list (string * pyval)) : dict :=
  fold_left (fun d kv => dict_set d (fst kv) (snd kv)) items [].

(** [d.items()]: the items in insertion order. *)
Definition items (d : dict) : list (string * pyval) := d.

Definition keys (d : dict) : list string := map fst d.

(** [v == n] for an int literal [n] (below 2^53, where the conversion to
    a float is exact). *)
Definition eq_int (v : pyval) (n : Z) : bool :=
  match v with
  | VInt z => z =? n
  | VBool b => (if b then 1 else 0) =? n
  | VFloat f => PrimFloat.eqb f (PrimFloat.of_uint63 (Uint63.of_Z n))
  | _ => false
  end.

(** The ASCII white space [int] skips on both sides of its argument:
    tab, line feed, vertical tab, form feed, carriage return, space. *)
Definition is_space (c : ascii) : bool :=
  let n := Z.of_N (N_of_ascii c) in
  ((9 <=? n) && (n <=? 13)) || (n =? 32).

Definition digit_of (c : ascii) : option Z :=
  let n := Z.of_N (N_of_ascii c) in
  if (48 <=? n) && (n <=? 57) then Some (n - 48) else None.

Fixpoint lstrip (s : string) : string :=
  match s with
  | EmptyString => EmptyString
  | String c s' => if is_space c then lstrip s' else s
  end.

Fixpoint rstrip (s : string) : string :=
  match s with
  | EmptyString => EmptyString
  | String c s' =>
      match rstrip s' with
      | EmptyString => if is_space c then EmptyString else String c EmptyString
      | t => String c t
      end
  end.

(** The digits of a base-10 literal; a single underscore may stand
    between two digits.  [acc] is the value read so far, [after_digit]
    tells whether the previous character was a digit. *)
Fixpoint int_digits (s : string) (acc : Z) (after_digit : bool) : option Z :=
  match s with
  | EmptyString => if after_digit then Some acc else None
  | String c s' =>
      match digit_of c with
      | Some d => int_digits s' (10 * acc + d) true
      | None =>
          if Ascii.eqb c "_" && after_digit
          then int_digits s' acc false
          else None
      end
  end.

(** The limit on the digits of a literal that [int] converts, as
    [sys.get_int_max_str_digits()] gives it by default (CPython 3.11 and
    later).  Only digits count: not underscores, the sign or white space. *)
Definition MAX_STR_DIGITS : Z := 4300.

Fixpoint digit_count (s : string) : Z :=
  match s with
  | EmptyString => 0
  | String c s' =>
      match digit_of c with
      | Some _ => 1 + digit_count s'
      | None => digit_count s'
      end
  end.

(** The literal after the sign: more digits than the limit, or a text
    that is no literal, is a [ValueError]. *)
Definition int_literal (s : string) : option Z :=
  if MAX_STR_DIGITS <? digit_count s then None else int_digits s 0 false.

(** [int(s)] for a str [s] of ASCII text; [None] stands for [ValueError].
    On ASCII text this is Python's [int].  Outside ASCII Python also reads
    the other decimal digits of Unicode and strips its other white space,
    which this definition does not: a character outside ASCII is no digit
    and no white space here.  So a text this definition reads is read
    alike by Python, and a text it refuses is refused by Python if it is
    ASCII text. *)
Definition int (s : string) : option Z :=
  let t := rstrip (lstrip s) in
  match t with
  | String "+" r => int_literal r
  | String "-" r => option_map Z.opp (int_literal r)
  | _ => int_literal t
  end.

(** [s.split(sep)] for a one-character separator. *)
Fixpoint split (sep : ascii) (s : string) : list string :=
  match s with
  | EmptyString => [EmptyString]
  | String c s' =>
      if Ascii.eqb c sep then EmptyString :: split sep s'
      else match split sep s' with
           | p :: ps => String c p :: ps
           | [] => [String c EmptyString]
           end
  end.

(** One decimal digit as a character, and [%H] / [%M] of [strftime]:
    two digits, zero padded. *)
Definition digit_char (d : Z) : ascii := ascii_of_N (Z.to_N (48 + d)).

Definition two_digits (n : Z) : string :=
  String (digit_char (n / 10)) (String (digit_char (n mod 10)) EmptyString).

End Py.

(** ** Effects: console, network, exceptions *)

(** The two HTTP calls of the script, as [requests.get(url, params=...,
    timeout=...)] and [requests.post(url, json=..., timeout=...)]. *)
Inductive request : Type :=
| GET (url : string) (params : list (string * string)) (timeout : Z)
| POST (url : string) (json : pyval) (timeout : Z).

(** What the [requests] library hands back: the status code of the
    response and what [response.json()] gives ([None] when the body is not
    JSON, where the call raises). *)
Record response : Type := mkResponse {
  status_code : Z;
  json_body : option pyval
}.

(** The outcome of one HTTP call: the transport fails, or a response
    arrives.  A failed transport raises the matching exception of the
    [requests] library. *)
Inductive transport_failure : Type :=
| TimedOut
| NoConnection
| RequestFailed.

Definition transport_exn (c : transport_failure) : exn :=
  match c with
  | TimedOut => Timeout
  | NoConnection => ConnectionError
  | RequestFailed => RequestException
  end.

Inductive reply : Type :=
| Failed (cause : transport_failure)
| Answer (r : response).

(** [datetime.now()], as far as the script reads it. *)
Record datetime : Type := mkDatetime {
  hour : Z;
  minute : Z
}.

(** The surroundings of one run: the process environment, the wall clock
    and the network.  The network answers a request knowing the requests
    made before it. *)
Record env : Type := mkEnv {
  environ : string -> option string;
  clock : datetime;
  network : list request -> request -> reply
}.

(** One printed line is kept as the pieces of its f-string; the text of
    an interpolated exception, value or [json.dumps] is left uninterpreted. *)
Inductive piece : Type :=
| Lit (s : string)
| Str (v : pyval)
| ExnStr (e : exn)
| JsonDumps (d : dict) (indent : Z).

Definition line : Type := list piece.

(** What a run leaves behind: the lines printed and the requests issued,
    both oldest first. *)
Record world : Type := mkWorld {
  stdout : list line;
  wire : list request
}.

Definition start : world := mkWorld [] [].

Inductive outcome (A : Type) : Type :=
| Ok (a : A)
| Raise (x : exn).

Arguments Ok {A} a.
Arguments Raise {A} x.

Definition M (A : Type) : Type := env -> world -> outcome A * world.

Definition ret {A} (a : A) : M A := fun _ w => (Ok a, w).

Definition bind {A B} (m : M A) (k : A -> M B) : M B :=
  fun e w =>
    match m e w with
    | (Ok a, w') => k a e w'
    | (Raise x, w') => (Raise x, w')
    end.

Definition raise {A} (x : exn) : M A := fun _ w => (Raise x, w).

Notation "x <- m ;; k" := (bind m (fun x => k))
  (at level 61, m at next level, right associativity).
Notation "m ;; k" := (bind m (fun _ => k))
  (at level 61, right associativity).

(** [try: body  except Exception as e: handler e]. *)
Definition try_except {A} (body : M A) (handler : exn -> M A) : M A :=
  fun e w =>
    match body e w with
    | (Raise x, w') => if is_Exception x then handler x e w' else (Raise x, w')
    | done => done
    end.

Definition print (l : line) : M unit :=
  fun _ w => (Ok tt, mkWorld (stdout w ++ [l]) (wire w)).

(** [os.getenv(key, default)]. *)
Definition getenv (key default : string) : M string :=
  fun e w =>
    (Ok match environ e key with Some v => v | None => default end, w).

Definition datetime_now : M datetime := fun e w => (Ok (clock e), w).

(** One HTTP call: the request goes on the wire, and the call returns the
    response or raises the transport's exception. *)
Definition http (rq : request) : M response :=
  fun e w =>
    let w' := mkWorld (stdout w) (wire w ++ [rq]) in
    match network e (wire w) rq with
    | Failed c => (Raise (transport_exn c), w')
    | Answer r => (Ok r, w')
    end.

Definition requests_get (url : string) (params : list (string * string))
    (timeout : Z) : M response :=
  http (GET url params timeout).

Definition requests_post (url : string) (json : pyval) (timeout : Z)
    : M response :=
  http (POST url json timeout).

(** [response.raise_for_status()]: [HTTPError] for a 4xx or 5xx status. *)
Definition http_error (status : Z) : bool :=
  (400 <=? status) && (status <? 600).

Definition raise_for_status (r : response) : M unit :=
  if http_error (status_code r) then raise (HTTPError (status_code r))
  else ret tt.

(** [response.json()]. *)
Definition response_json (r : response) : M pyval :=
  match json_body r with
  | Some v => ret v
  | None => raise JSONDecodeError
  end.

(** [v[key]] for a str [key]: only a dict can be indexed by a str. *)
Definition getitem (v : pyval) (key : string) : M pyval :=
  match v with
  | VDict d =>
      match Py.dict_get d key with
      | Some x => ret x
      | None => raise (KeyError key)
      end
  | _ => raise TypeError
  end.

(** [a, b = map(int, parts)]: exactly two parts, each accepted by [int];
    every other case ends in a [ValueError]. *)
Definition unpack_two_ints (parts : list string) : M (Z * Z) :=
  match parts with
  | [a; b] =>
      match Py.int a, Py.int b with
      | Some x, Some y => ret (x, y)
      | _, _ => raise ValueError
      end
  | _ => raise ValueError
  end.

(** ** The script *)

(** Configuration from environment variables. *)
Definition NTFY_TOPIC : M string := getenv "NTFY_TOPIC" "your-unique-topic-name".
Definition LATITUDE : M string := getenv "LATITUDE" "25.3463".
Definition LONGITUDE : M string := getenv "LONGITUDE" "55.4209".
Definition CALCULATION_METHOD : M string := getenv "CALCULATION_METHOD" "4".

(** Prayer time tolerance in minutes. *)
Definition NOTIFICATION_WINDOW : Z := 5.

(** Fetch prayer times from the timings API: the dict of the five daily
    prayers, or [None]. *)
Definition get_prayer_times : M (option dict) :=
  try_except
    (let url := "http://api.aladhan.com/v1/timings" in
     latitude <- LATITUDE ;;
     longitude <- LONGITUDE ;;
     method <- CALCULATION_METHOD ;;
     let params :=
       [("latitude", latitude); ("longitude", longitude); ("method", method)] in
     response <- requests_get url params 10 ;;
     raise_for_status response ;;
     data <- response_json response ;;
     code <- getitem data "code" ;;
     if Py.eq_int code 200 then
       data' <- getitem data "data" ;;
       timings <- getitem data' "timings" ;;
       fajr <- getitem timings "Fajr" ;;
       dhuhr <- getitem timings "Dhuhr" ;;
       asr <- getitem timings "Asr" ;;
       maghrib <- getitem timings "Maghrib" ;;
       isha <- getitem timings "Isha" ;;
       let prayers :=
         Py.dict_display
           [("Fajr", fajr); ("Dhuhr", dhuhr); ("Asr", asr);
            ("Maghrib", maghrib); ("Isha", isha)] in
       ret (Some prayers)
     else
       code' <- getitem data "code" ;;
       print [Lit "API returned error code: "; Str code'] ;;
       ret None)
    (fun e =>
       print [Lit "Error fetching prayer times: "; ExnStr e] ;;
       ret None).

(** The JSON body of the notification. *)
Definition notification (topic prayer_name prayer_time : string) : pyval :=
  VDict (Py.dict_display
    [("topic", VStr topic);
     ("title", VStr ("🕌 " ++ prayer_name ++ " Time"));
     ("message",
      VStr ("It's time for " ++ prayer_name ++ " prayer (" ++ prayer_time ++ ")"));
     ("priority", VInt 5);
     ("tags", VList [VStr "mosque"; VStr "pray"])]).

(** Send notification via ntfy.sh; [true] when it went through. *)
Definition send_notification (prayer_name prayer_time : string) : M bool :=
  try_except
    (topic <- NTFY_TOPIC ;;
     let url := "https://ntfy.sh/" ++ topic in
     let data := notification topic prayer_name prayer_time in
     response <- requests_post url data 10 ;;
     raise_for_status response ;;
     print [Lit ("✅ Notification sent for " ++ prayer_name ++ " at " ++ prayer_time)] ;;
     ret true)
    (fun e =>
       print [Lit "❌ Error sending notification: "; ExnStr e] ;;
       ret false).

(** The test of the loop: same hour, and minutes at most the window apart. *)
Definition matches (now : datetime) (prayer_hour prayer_minute : Z) : bool :=
  (hour now =? prayer_hour)
  && (Z.abs (minute now - prayer_minute) <=? NOTIFICATION_WINDOW).

(** [prayer_hour, prayer_minute = map(int, prayer_time.split(':'))]. *)
Definition parse_time (prayer_time : string) : M (Z * Z) :=
  unpack_two_ints (Py.split ":" prayer_time).

(** The loop [for prayer_name, prayer_time in prayers.items()] with the
    line that follows it.  A time that is not a str has no [split]. *)
Fixpoint check_each (now : datetime) (items : list (string * pyval)) : M unit :=
  match items with
  | [] => print [Lit "⏳ No prayer time right now"]
  | (prayer_name, VStr prayer_time) :: rest =>
      hm <- parse_time prayer_time ;;
      if matches now (fst hm) (snd hm) then
        print [Lit ("🔔 Time for " ++ prayer_name ++ "!")] ;;
        send_notification prayer_name prayer_time ;;
        ret tt
      else check_each now rest
  | (_, _) :: _ => raise AttributeError
  end.

(** Main function to check prayer times and send notifications. *)
Definition check_and_notify : M unit :=
  now <- datetime_now ;;
  let current_time :=
    Py.two_digits (hour now) ++ ":" ++ Py.two_digits (minute now) in
  print [Lit ("🕐 Current time: " ++ current_time)] ;;
  prayers <- get_prayer_times ;;
  match prayers with
  | Some ((_ :: _) as prayers) =>
      print [Lit "📅 Today's prayer times: "; JsonDumps prayers 2] ;;
      check_each now (Py.items prayers)
  | _ =>
      (* [if not prayers]: [None] and the empty dict are false *)
      print [Lit "Failed to fetch prayer times"] ;;
      raise (SystemExit 1)
  end.

(** One run of the script from a fresh process, and the exit status the
    interpreter reports for it: 0 after a normal return, the code of
    [sys.exit], 1 after any other exception. *)
Definition run (e : env) : outcome unit * world := check_and_notify e start.

Definition exit_status {A} (r : outcome A) : Z :=
  match r with
  | Ok _ => 0
  | Raise (SystemExit code) => code
  | Raise _ => 1
  end.

(** The notifications of a run: the POST requests on the wire. *)
Definition is_post (rq : request) : bool :=
  match rq with
  | POST _ _ _ => true
  | GET _ _ _ => false
  end.

Definition sent (w : world) : list request := filter is_post (wire w).

(** ** Vocabulary of the specification *)

(** A configuration value as the process environment gives it. *)
Definition setting (e : env) (key default : string) : string :=
  match environ e key with
  | Some v => v
  | None => default
  end.

Definition topic (e : env) : string := setting e "NTFY_TOPIC" "your-unique-topic-name".

(** The one request of the fetch, and the request that notifies of a
    prayer. *)
Definition fetch_request (e : env) : request :=
  GET "http://api.aladhan.com/v1/timings"
      [("latitude", setting e "LATITUDE" "25.3463");
       ("longitude", setting e "LONGITUDE" "55.4209");
       ("method", setting e "CALCULATION_METHOD" "4")]
      10.

Definition push_request (e : env) (prayer_name prayer_time : string) : request :=
  POST ("https://ntfy.sh/" ++ topic e)
       (notification (topic e) prayer_name prayer_time)
       10.

(** A named field of a JSON object; nothing when the value is no object
    or the name is missing. *)
Definition field (v : pyval) (key : string) : option pyval :=
  match v with
  | VDict d => Py.dict_get d key
  | _ => None
  end.

(** The fixed enumeration order of the prayers. *)
Definition prayer_names : list string :=
  ["Fajr"; "Dhuhr"; "Asr"; "Maghrib"; "Isha"].

(** The PrayerSchedule of the specification: the five named fields of the
    timings object nested in a response body, when all are there. *)
Definition timings_of (data : pyval) : option pyval :=
  match field data "data" with
  | Some d => field d "timings"
  | None => None
  end.

Definition five_fields (timings : pyval) : option dict :=
  match field timings "Fajr", field timings "Dhuhr", field timings "Asr",
        field timings "Maghrib", field timings "Isha" with
  | Some f, Some d, Some a, Some m, Some i =>
      Some [("Fajr", f); ("Dhuhr", d); ("Asr", a); ("Maghrib", m); ("Isha", i)]
  | _, _, _, _, _ => None
  end.

Definition schedule_of (data : pyval) : option dict :=
  match timings_of data with
  | Some t => five_fields t
  | None => None
  end.

(** The ways a fetch can fail, as the specification lists them. *)
Inductive fetch_failure : reply -> Prop :=
| transport_failed (c : transport_failure) :
    fetch_failure (Failed c)
| http_status_bad (r : response) :
    http_error (status_code r) = true ->
    fetch_failure (Answer r)
| body_not_json (r : response) :
    json_body r = None ->
    fetch_failure (Answer r)
| code_missing (r : response) (data : pyval) :
    json_body r = Some data ->
    field data "code" = None ->
    fetch_failure (Answer r)
| code_not_200 (r : response) (data code : pyval) :
    json_body r = Some data ->
    field data "code" = Some code ->
    Py.eq_int code 200 = false ->
    fetch_failure (Answer r)
| fields_missing (r : response) (data : pyval) :
    json_body r = Some data ->
    schedule_of data = None ->
    fetch_failure (Answer r).

(** The diagnostic message of a failed fetch. *)
Definition diagnostic (l : line) : Prop :=
  (exists x, l = [Lit "Error fetching prayer times: "; ExnStr x]) \/
  (exists code, l = [Lit "API returned error code: "; Str code]).

(** A response the specification calls a success: the transport and the
    HTTP status are fine and the status code field of the body is 200. *)
Definition fetch_success (rp : reply) (data : pyval) : Prop :=
  exists r code,
    rp = Answer r /\ http_error (status_code r) = false /\
    json_body r = Some data /\
    field data "code" = Some code /\ Py.eq_int code 200 = true.

(** The ways a send can fail. *)
Inductive send_failure : reply -> Prop :=
| send_transport_failed (c : transport_failure) :
    send_failure (Failed c)
| send_status_bad (r : response) :
    http_error (status_code r) = true ->
    send_failure (Answer r).

(** ASCII text: every character is below 128.  This is the text on
    which [Py.int] is Python's [int]. *)
Fixpoint is_ascii (t : string) : bool :=
  match t with
  | EmptyString => true
  | String c t' => (N_of_ascii c <? 128)%N && is_ascii t'
  end.

(** The times of a schedule entry are ASCII text (an entry that is no
    string has none). *)
Definition ascii_time (entry : string * pyval) : bool :=
  match snd entry with
  | VStr t => is_ascii t
  | _ => true
  end.

(** The hour and minute a time string stands for, as the loop reads it. *)
Definition clock_time (t : string) : option (Z * Z) :=
  match Py.split ":" t with
  | [a; b] =>
      match Py.int a, Py.int b with
      | Some x, Some y => Some (x, y)
      | _, _ => None
      end
  | _ => None
  end.

(** A well-formed [HH:MM] string: two digits, a colon, two digits. *)
Definition is_digit (c : ascii) : bool :=
  match Py.digit_of c with
  | Some _ => true
  | None => false
  end.

Definition is_hhmm (t : string) : bool :=
  match t with
  | String h1 (String h2 (String c (String m1 (String m2 EmptyString)))) =>
      is_digit h1 && is_digit h2 && Ascii.eqb c ":" && is_digit m1 && is_digit m2
  | _ => false
  end.

Definition well_formed (entry : string * pyval) : Prop :=
  exists t, snd entry = VStr t /\ is_hhmm t = true.

(** The prayer is due: its time reads as an hour and a minute that match
    the clock. *)
Definition due (now : datetime) (entry : string * pyval) : bool :=
  match snd entry with
  | VStr t =>
      match clock_time t with
      | Some (h, m) => matches now h m
      | None => false
      end
  | _ => false
  end.

(** The loop passes over the prayer: its time reads as an hour and a
    minute that do not match the clock. *)
Definition passed_over (now : datetime) (entry : string * pyval) : bool :=
  match snd entry with
  | VStr t =>
      match clock_time t with
      | Some (h, m) => negb (matches now h m)
      | None => false
      end
  | _ => false
  end.

(** The first prayer that is due, in the order of the schedule. *)
Definition first_due (now : datetime) (schedule : dict) : option (string * pyval) :=
  find (due now) schedule.

(** What the fetch of a run returns: the fetch is the first call on the
    network. *)
Definition fetched (e : env) : outcome (option dict) :=
  fst (get_prayer_times e start).

(** ** Sample surroundings *)

Definition sample_timings (fajr dhuhr asr maghrib isha : pyval) : pyval :=
  VDict [("Fajr", fajr); ("Sunrise", VStr "06:21"); ("Dhuhr", dhuhr);
         ("Asr", asr); ("Sunset", VStr "17:40"); ("Maghrib", maghrib);
         ("Isha", isha); ("Midnight", VStr "00:01")].

Definition sample_body (code : pyval) (timings : pyval) : pyval :=
  VDict [("code", code); ("status", VStr "OK");
         ("data", VDict [("timings", timings); ("date", VDict [])])].

Definition ok (body : pyval) : reply := Answer (mkResponse 200 (Some body)).

(** Surroundings with an empty process environment, where every GET is
    answered by [fetch] and every POST by [push]. *)
Definition sample_env (now : datetime) (fetch push : reply) : env :=
  mkEnv (fun _ => None) now
        (fun _ rq => match rq with
                     | GET _ _ _ => fetch
                     | POST _ _ _ => push
                     end).

Definition usual_day : pyval :=
  sample_timings (VStr "05:00") (VStr "12:10") (VStr "15:30")
                 (VStr "17:58") (VStr "19:20").

(** The schedule the fetch builds from five time strings. *)
Definition schedule (fajr dhuhr asr maghrib isha : string) : dict :=
  [("Fajr", VStr fajr); ("Dhuhr", VStr dhuhr); ("Asr", VStr asr);
   ("Maghrib", VStr maghrib); ("Isha", VStr isha)].

Definition midnight_day : pyval :=
  sample_timings (VStr "04:40") (VStr "12:10") (VStr "15:30")
                 (VStr "18:05") (VStr "23:58").

Definition twin_day : pyval :=
  sample_timings (VStr "05:00") (VStr "12:10") (VStr "12:10")
                 (VStr "17:58") (VStr "19:20").

Definition annotated_day : pyval :=
  sample_timings (VStr "05:00") (VStr "12:10 (+04)") (VStr "15:30")
                 (VStr "17:58") (VStr "19:20").

Definition at_fajr : env :=
  sample_env (mkDatetime 5 3) (ok (sample_body (VInt 200) usual_day)) (ok VNone).

Definition after_fajr : env :=
  sample_env (mkDatetime 5 10) (ok (sample_body (VInt 200) usual_day)) (ok VNone).

Definition at_twins : env :=
  sample_env (mkDatetime 12 8) (ok (sample_body (VInt 200) twin_day)) (ok VNone).

Definition after_midnight : env :=
  sample_env (mkDatetime 0 2) (ok (sample_body (VInt 200) midnight_day)) (ok VNone).

Definition api_error : env :=
  sample_env (mkDatetime 5 3) (ok (sample_body (VInt 404) usual_day)) (ok VNone).

Definition push_down : env :=
  sample_env (mkDatetime 5 3) (ok (sample_body (VInt 200) usual_day))
             (Answer (mkResponse 503 None)).

Definition annotated : env :=
  sample_env (mkDatetime 12 10) (ok (sample_body (VInt 200) annotated_day)) (ok VNone).

(** ** What the three functions compute *)

(** The result of the fetch, read off the reply to its request. *)
Definition fetch_result (rp : reply) : option dict :=
  match rp with
  | Failed _ => None
  | Answer r =>
      if http_error (status_code r) then None
      else match json_body r with
           | None => None
           | Some data =>
               match field data "code" with
               | None => None
               | Some code => if Py.eq_int code 200 then schedule_of data else None
               end
           end
  end.

(** Whether the push went through, and the line [send_notification]
    prints about it, read off the reply to its request. *)
Definition delivered (rp : reply) : bool :=
  match rp with
  | Failed _ => false
  | Answer r => negb (http_error (status_code r))
  end.

Definition send_report (prayer_name prayer_time : string) (rp : reply) : line :=
  match rp with
  | Failed c => [Lit "❌ Error sending notification: "; ExnStr (transport_exn c)]
  | Answer r =>
      if http_error (status_code r)
      then [Lit "❌ Error sending notification: "; ExnStr (HTTPError (status_code r))]
      else [Lit ("✅ Notification sent for " ++ prayer_name ++ " at " ++ prayer_time)]
  end.

(** The lines of [check_and_notify] before the loop. *)
Definition time_line (e : env) : line :=
  [Lit ("🕐 Current time: " ++ Py.two_digits (hour (clock e)) ++ ":"
        ++ Py.two_digits (minute (clock e)))].

Definition schedule_line (prayers : dict) : line :=
  [Lit "📅 Today's prayer times: "; JsonDumps prayers 2].

(** The branch of the loop taken on a match. *)
Definition notify (prayer_name prayer_time : string) : M unit :=
  print [Lit ("🔔 Time for " ++ prayer_name ++ "!")] ;;
  send_notification prayer_name prayer_time ;;
  ret tt.

(** ** The loop and the fetch, read as pure functions *)

(** How the loop over a schedule ends: it notifies of a prayer, finds
    none due, or stops on an exception. *)
Inductive verdict : Type :=
| Notify (prayer_name prayer_time : string)
| Idle
| Crash (x : exn).

Fixpoint loop_verdict (now : datetime) (items : list (string * pyval)) : verdict :=
  match items with
  | [] => Idle
  | (prayer_name, VStr prayer_time) :: rest =>
      match clock_time prayer_time with
      | None => Crash ValueError
      | Some (h, m) =>
          if matches now h m then Notify prayer_name prayer_time
          else loop_verdict now rest
      end
  | (_, _) :: _ => Crash AttributeError
  end.

(** The number of occurrences of a character in a string. *)
Fixpoint count_char (c : ascii) (s : string) : nat :=
  match s with
  | EmptyString => 0%nat
  | String c' s' => ((if Ascii.eqb c' c then 1 else 0) + count_char c s')%nat
  end.

(** The first of the five prayer names, in their order, that a timings
    object lacks. *)
Definition first_missing (timings : dict) : option string :=
  find (fun name => match Py.dict_get timings name with
                    | Some _ => false
                    | None => true
                    end)
       prayer_names.

(** Surroundings where Fajr is due and a later time carries an
    annotation. *)
Definition annotated_at_fajr : env :=
  sample_env (mkDatetime 5 3) (ok (sample_body (VInt 200) annotated_day)) (ok VNone).

Definition no_isha : env :=
  sample_env (mkDatetime 5 3)
    (ok (sample_body (VInt 200)
           (VDict [("Fajr", VStr "05:00"); ("Dhuhr", VStr "12:10");
                   ("Asr", VStr "15:30"); ("Maghrib", VStr "17:58")])))
    (ok VNone).

(** A character repeated. *)
Fixpoint replicate (n : nat) (c : ascii) : string :=
  match n with
  | O => EmptyString
  | S n' => String c (replicate n' c)
  end.

(** ** The built-ins on sample inputs *)

Example int_examples :
  Py.int "05" = Some 5 /\ Py.int " 05 " = Some 5 /\ Py.int "+5" = Some 5 /\
  Py.int "-5" = Some (-5) /\ Py.int "0_5" = Some 5 /\ Py.int "_5" = None /\
  Py.int "5_" = None /\ Py.int "5__0" = None /\ Py.int "" = None /\
  Py.int "+ 5" = None /\ Py.int "1 2" = None /\ Py.int "5.0" = None.
Proof. repeat split; reflexivity. Qed.

Example int_digit_limit :
  Py.int (replicate 4299 "0" ++ "5") = Some 5 /\
  Py.int (replicate 4300 "0" ++ "5") = None /\
  Py.int (" -" ++ replicate 4299 "0" ++ "_5 ") = Some (-5) /\
  Py.int (replicate 4301 "1") = None.
Proof. repeat split; vm_compute; reflexivity. Qed.

Example split_examples :
  Py.split ":" "a:b" = ["a"; "b"] /\ Py.split ":" "" = [""] /\
  Py.split ":" "a:" = ["a"; ""] /\ Py.split ":" ":" = [""; ""] /\
  Py.split ":" "a" = ["a"].
Proof. repeat split; reflexivity. Qed.

Example eq_int_examples :
  Py.eq_int (VInt 200) 200 = true /\ Py.eq_int (VFloat 200%float) 200 = true /\
  Py.eq_int (VBool true) 200 = false /\ Py.eq_int (VStr "200") 200 = false /\
  Py.eq_int VNone 200 = false /\ Py.eq_int (VInt 404) 200 = false.
Proof. repeat split; reflexivity. Qed.

(** ** The built-ins on clock times *)

Lemma digit_not_space (c : ascii) (d : Z) :
  Py.digit_of c = Some d -> Py.is_space c = false.
Proof.
  destruct c as [[] [] [] [] [] [] [] []]; vm_compute; congruence.
Qed.

Lemma digit_not_colon (c : ascii) (d : Z) :
  Py.digit_of c = Some d -> Ascii.eqb c ":" = false.
Proof.
  destruct c as [[] [] [] [] [] [] [] []]; vm_compute; congruence.
Qed.

Lemma digit_range (c : ascii) (d : Z) :
  Py.digit_of c = Some d -> 0 <= d <= 9.
Proof.
  unfold Py.digit_of.
  destruct (_ && _) eqn:E; [|discriminate].
  intros [= <-]. apply andb_prop in E. lia.
Qed.

(** [int] reads two digits as the number they write. *)
Lemma int_two_digits (a b : ascii) (x y : Z) :
  Py.digit_of a = Some x -> Py.digit_of b = Some y ->
  Py.int (String a (String b EmptyString)) = Some (10 * x + y).
Proof.
  intros Ha Hb.
  pose proof (digit_not_space _ _ Ha) as Sa.
  pose proof (digit_not_space _ _ Hb) as Sb.
  unfold Py.int. cbn [Py.lstrip]. rewrite Sa.
  cbn [Py.rstrip]. rewrite Sb.
  assert (G : Py.int_literal (String a (String b EmptyString))
              = Some (10 * x + y)).
  { unfold Py.int_literal. cbn [Py.digit_count Py.int_digits].
    rewrite Ha, Hb. reflexivity. }
  destruct a as [[] [] [] [] [] [] [] []]; try exact G;
    vm_compute in Ha; discriminate.
Qed.

Lemma is_digit_true (c : ascii) :
  is_digit c = true -> exists d, Py.digit_of c = Some d.
Proof.
  unfold is_digit. destruct (Py.digit_of c); [eauto | discriminate].
Qed.

(** A well-formed time reads as the hour and the minute its digits
    write. *)
Lemma hhmm_clock_time (h1 h2 m1 m2 : ascii) (a b x y : Z) :
  Py.digit_of h1 = Some a -> Py.digit_of h2 = Some b ->
  Py.digit_of m1 = Some x -> Py.digit_of m2 = Some y ->
  clock_time (String h1 (String h2 (String ":" (String m1 (String m2 EmptyString)))))
  = Some (10 * a + b, 10 * x + y).
Proof.
  intros Ha Hb Hx Hy.
  unfold clock_time. cbn [Py.split].
  rewrite (digit_not_colon _ _ Ha), (digit_not_colon _ _ Hb),
    (digit_not_colon _ _ Hx), (digit_not_colon _ _ Hy).
  cbn [Ascii.eqb Bool.eqb].
  rewrite (int_two_digits _ _ _ _ Ha Hb), (int_two_digits _ _ _ _ Hx Hy).
  reflexivity.
Qed.

Lemma is_hhmm_clock_time (t : string) :
  is_hhmm t = true ->
  exists h m, clock_time t = Some (h, m) /\ 0 <= h <= 99 /\ 0 <= m <= 99.
Proof.
  destruct t as [|h1 [|h2 [|c [|m1 [|m2 [|? ?]]]]]]; try discriminate.
  cbn [is_hhmm]. intros H.
  repeat (apply andb_prop in H; destruct H as [H ?]).
  destruct (is_digit_true _ H) as [a Ha].
  destruct (is_digit_true h2) as [b Hb]; [assumption|].
  destruct (is_digit_true m1) as [x Hx]; [assumption|].
  destruct (is_digit_true m2) as [y Hy]; [assumption|].
  exists (10 * a + b), (10 * x + y).
  pose proof (digit_range _ _ Ha). pose proof (digit_range _ _ Hb).
  pose proof (digit_range _ _ Hx). pose proof (digit_range _ _ Hy).
  split; [|lia].
  assert (c = ":"%char) as -> by (now apply Ascii.eqb_eq).
  now apply hhmm_clock_time.
Qed.

(** ** The times the loop reads are ASCII text

    Whatever [Py.int] reads consists of ASCII white space, a sign, digits
    and underscores, with no more digits than the limit: the text on
    which it is Python's [int]. *)

Lemma space_is_ascii (c : ascii) :
  Py.is_space c = true -> (N_of_ascii c <? 128)%N = true.
Proof.
  destruct c as [[] [] [] [] [] [] [] []]; vm_compute; congruence.
Qed.

Lemma digit_is_ascii (c : ascii) (d : Z) :
  Py.digit_of c = Some d -> (N_of_ascii c <? 128)%N = true.
Proof.
  destruct c as [[] [] [] [] [] [] [] []]; vm_compute; congruence.
Qed.

Lemma int_digits_is_ascii (s : string) (acc : Z) (after_digit : bool) (z : Z) :
  Py.int_digits s acc after_digit = Some z -> is_ascii s = true.
Proof.
  revert acc after_digit.
  induction s as [|c s IH]; intros acc after_digit; [reflexivity|].
  cbn [Py.int_digits is_ascii].
  destruct (Py.digit_of c) as [d|] eqn:Hd.
  - intros H. rewrite (digit_is_ascii c d Hd). exact (IH _ _ H).
  - destruct (Ascii.eqb c "_") eqn:Hu; [|discriminate].
    apply Ascii.eqb_eq in Hu. subst c.
    destruct after_digit; [|discriminate].
    intros H. exact (IH _ _ H).
Qed.

Lemma int_literal_is_ascii (s : string) (z : Z) :
  Py.int_literal s = Some z ->
  is_ascii s = true /\ Py.digit_count s <= Py.MAX_STR_DIGITS.
Proof.
  unfold Py.int_literal.
  destruct (Py.MAX_STR_DIGITS <? Py.digit_count s) eqn:E; [discriminate|].
  intros H. split; [exact (int_digits_is_ascii _ _ _ _ H)|].
  now apply Z.ltb_ge.
Qed.

Lemma lstrip_is_ascii (s : string) :
  is_ascii (Py.lstrip s) = true -> is_ascii s = true.
Proof.
  induction s as [|c s IH]; [reflexivity|].
  cbn [Py.lstrip]. destruct (Py.is_space c) eqn:Hs; [|trivial].
  intros H. cbn [is_ascii]. now rewrite (space_is_ascii c Hs), IH.
Qed.

Lemma rstrip_is_ascii (s : string) :
  is_ascii (Py.rstrip s) = true -> is_ascii s = true.
Proof.
  induction s as [|c s IH]; [reflexivity|].
  cbn [Py.rstrip is_ascii].
  destruct (Py.rstrip s) as [|c' t].
  - destruct (Py.is_space c) eqn:Hs.
    + intros _. now rewrite (space_is_ascii c Hs), IH.
    + cbn [is_ascii]. intros H. apply andb_prop in H as [H _].
      now rewrite H, IH.
  - cbn [is_ascii] in *. intros H. apply andb_prop in H as [H1 H2].
    now rewrite H1, IH.
Qed.

Lemma int_is_ascii (s : string) (z : Z) :
  Py.int s = Some z -> is_ascii s = true.
Proof.
  unfold Py.int. intros H.
  apply lstrip_is_ascii, rstrip_is_ascii.
  destruct (Py.rstrip (Py.lstrip s)) as [|c r] eqn:E.
  - reflexivity.
  - assert (L : forall y, Py.int_literal (String c r) = Some y ->
                          is_ascii (String c r) = true)
      by (intros y Hy; exact (proj1 (int_literal_is_ascii _ _ Hy))).
    assert (R : forall y, Py.int_literal r = Some y -> is_ascii r = true)
      by (intros y Hy; exact (proj1 (int_literal_is_ascii _ _ Hy))).
    destruct c as [[] [] [] [] [] [] [] []];
      try (exact (L _ H));
      cbn [is_ascii];
      first [ now rewrite (R z H)
            | destruct (Py.int_literal r) as [y|]; [|discriminate];
              now rewrite (R y eq_refl) ].
Qed.

Lemma split_is_ascii (s : string) :
  forallb is_ascii (Py.split ":" s) = true -> is_ascii s = true.
Proof.
  induction s as [|c s IH]; [reflexivity|].
  cbn [Py.split].
  destruct (Ascii.eqb c ":") eqn:Hc.
  - apply Ascii.eqb_eq in Hc. subst c. cbn [forallb is_ascii].
    intros H. now apply IH.
  - destruct (Py.split ":" s) as [|p ps]; cbn [forallb is_ascii] in *.
    + intros H. rewrite andb_true_r in H. apply andb_prop in H as [H _].
      rewrite H. now apply IH.
    + intros H. apply andb_prop in H as [H1 H2].
      apply andb_prop in H1 as [H0 H1]. rewrite H0.
      apply IH. now rewrite H1, H2.
Qed.

(** A time the loop reads as an hour and a minute is ASCII text. *)
Lemma clock_time_is_ascii (t : string) (hm : Z * Z) :
  clock_time t = Some hm -> is_ascii t = true.
Proof.
  unfold clock_time. intros H. apply split_is_ascii.
  destruct (Py.split ":" t) as [|a [|b [|? ?]]]; try discriminate.
  destruct (Py.int a) as [x|] eqn:Ha; [|discriminate].
  destruct (Py.int b) as [y|] eqn:Hb; [|discriminate].
  cbn [forallb]. now rewrite (int_is_ascii a x Ha), (int_is_ascii b y Hb).
Qed.

Lemma passed_over_is_ascii (now : datetime) (entry : string * pyval) :
  passed_over now entry = true -> ascii_time entry = true.
Proof.
  unfold passed_over, ascii_time. destruct (snd entry); try discriminate.
  destruct (clock_time s) as [hm|] eqn:E; [|discriminate].
  intros _. exact (clock_time_is_ascii s hm E).
Qed.

Lemma due_is_ascii (now : datetime) (entry : string * pyval) :
  due now entry = true -> ascii_time entry = true.
Proof.
  unfold due, ascii_time. destruct (snd entry); try discriminate.
  destruct (clock_time s) as [hm|] eqn:E; [|discriminate].
  intros _. exact (clock_time_is_ascii s hm E).
Qed.

Lemma parse_time_eq (t : string) (e : env) (w : world) :
  parse_time t e w =
  (match clock_time t with Some hm => Ok hm | None => Raise ValueError end, w).
Proof.
  unfold parse_time, clock_time, unpack_two_ints.
  destruct (Py.split ":" t) as [|a [|b [|? ?]]]; try reflexivity.
  destruct (Py.int a), (Py.int b); reflexivity.
Qed.

(** ** The fetch *)

Lemma getenv_eq (key default : string) (e : env) (w : world) :
  getenv key default e w = (Ok (setting e key default), w).
Proof. reflexivity. Qed.

Lemma getitem_eq (v : pyval) (key : string) (e : env) (w : world) :
  getitem v key e w =
  (match field v key with
   | Some x => Ok x
   | None => Raise (match v with VDict _ => KeyError key | _ => TypeError end)
   end, w).
Proof.
  destruct v; try reflexivity.
  cbn [getitem field]. destruct (Py.dict_get d key); reflexivity.
Qed.

Lemma five_fields_display (t f d a m i : pyval) :
  field t "Fajr" = Some f -> field t "Dhuhr" = Some d ->
  field t "Asr" = Some a -> field t "Maghrib" = Some m ->
  field t "Isha" = Some i ->
  five_fields t =
  Some (Py.dict_display
          [("Fajr", f); ("Dhuhr", d); ("Asr", a); ("Maghrib", m); ("Isha", i)]).
Proof.
  intros Hf Hd Ha Hm Hi. unfold five_fields.
  rewrite Hf, Hd, Ha, Hm, Hi. reflexivity.
Qed.

(** The fetch issues its one request, raises nothing, and returns what
    [fetch_result] reads off the reply; it prints one line, a diagnostic,
    exactly when it returns [None]. *)
Ltac one_diagnostic :=
  cbn; eexists; split; [reflexivity |];
  eexists; split; [reflexivity |];
  first [ left; eexists; reflexivity | right; eexists; reflexivity ].

Lemma get_prayer_times_eq (e : env) (w : world) :
  let rp := network e (wire w) (fetch_request e) in
  exists ls,
    get_prayer_times e w =
    (Ok (fetch_result rp),
     mkWorld (stdout w ++ ls) (wire w ++ [fetch_request e])) /\
    match fetch_result rp with
    | Some _ => ls = []
    | None => exists l, ls = [l] /\ diagnostic l
    end.
Proof.
  intros rp.
  unfold get_prayer_times, try_except, bind, LATITUDE, LONGITUDE,
    CALCULATION_METHOD, requests_get, http.
  rewrite !getenv_eq. fold (fetch_request e). fold rp.
  unfold fetch_result.
  destruct rp as [c | r].
  { destruct c; one_diagnostic. }
  unfold raise_for_status.
  destruct (http_error (status_code r)) eqn:Hs.
  { one_diagnostic. }
  unfold ret at 1. unfold response_json.
  destruct (json_body r) as [data|].
  2:{ one_diagnostic. }
  unfold ret at 1. rewrite getitem_eq.
  destruct (field data "code") as [code|] eqn:Hc.
  2:{ destruct data; one_diagnostic. }
  destruct (Py.eq_int code 200).
  2:{ rewrite getitem_eq, Hc. one_diagnostic. }
  unfold schedule_of, timings_of.
  rewrite getitem_eq.
  destruct (field data "data") as [d|].
  2:{ destruct data; one_diagnostic. }
  rewrite getitem_eq.
  destruct (field d "timings") as [t|].
  2:{ destruct d; one_diagnostic. }
  unfold five_fields.
  rewrite getitem_eq.
  destruct (field t "Fajr") as [f1|].
  2:{ destruct t; one_diagnostic. }
  rewrite getitem_eq.
  destruct (field t "Dhuhr") as [f2|].
  2:{ destruct t; one_diagnostic. }
  rewrite getitem_eq.
  destruct (field t "Asr") as [f3|].
  2:{ destruct t; one_diagnostic. }
  rewrite getitem_eq.
  destruct (field t "Maghrib") as [f4|].
  2:{ destruct t; one_diagnostic. }
  rewrite getitem_eq.
  destruct (field t "Isha") as [f5|].
  2:{ destruct t; one_diagnostic. }
  exists []. split; [|reflexivity].
  cbn. rewrite app_nil_r. reflexivity.
Qed.

Lemma fetch_failure_result (rp : reply) :
  fetch_failure rp -> fetch_result rp = None.
Proof.
  intros H. destruct H as [c | r Hs | r Hj | r data Hj Hc | r data code Hj Hc Hn
                          | r data Hj Hm]; cbn [fetch_result]; try reflexivity.
  - now rewrite Hs.
  - rewrite Hj. now destruct (http_error _).
  - rewrite Hj, Hc. now destruct (http_error _).
  - rewrite Hj, Hc, Hn. now destruct (http_error _).
  - rewrite Hj, Hm. destruct (http_error _); [reflexivity|].
    destruct (field data "code") as [code|]; [|reflexivity].
    now destruct (Py.eq_int code 200).
Qed.

Lemma fetch_result_schedule (rp : reply) (prayers : dict) :
  fetch_result rp = Some prayers ->
  exists data, fetch_success rp data /\ schedule_of data = Some prayers.
Proof.
  destruct rp as [c | r]; cbn [fetch_result]; [discriminate|].
  destruct (http_error (status_code r)) eqn:Hs; [discriminate|].
  destruct (json_body r) as [data|] eqn:Hj; [|discriminate].
  destruct (field data "code") as [code|] eqn:Hc; [|discriminate].
  destruct (Py.eq_int code 200) eqn:H2; [|discriminate].
  intros H. exists data. split; [|exact H].
  exists r, code. auto.
Qed.

Lemma fetch_success_result (rp : reply) (data : pyval) :
  fetch_success rp data -> fetch_result rp = schedule_of data.
Proof.
  intros (r & code & -> & Hs & Hj & Hc & H2).
  cbn [fetch_result]. now rewrite Hs, Hj, Hc, H2.
Qed.

Lemma five_fields_shape (t : pyval) (prayers : dict) :
  five_fields t = Some prayers ->
  exists f d a m i,
    prayers = [("Fajr", f); ("Dhuhr", d); ("Asr", a); ("Maghrib", m); ("Isha", i)]
    /\ field t "Fajr" = Some f /\ field t "Dhuhr" = Some d
    /\ field t "Asr" = Some a /\ field t "Maghrib" = Some m
    /\ field t "Isha" = Some i.
Proof.
  unfold five_fields.
  destruct (field t "Fajr") as [f|]; [|discriminate].
  destruct (field t "Dhuhr") as [d|]; [|discriminate].
  destruct (field t "Asr") as [a|]; [|discriminate].
  destruct (field t "Maghrib") as [m|]; [|discriminate].
  destruct (field t "Isha") as [i|]; [|discriminate].
  intros [= <-]. exists f, d, a, m, i. repeat split; reflexivity.
Qed.

Lemma schedule_of_shape (data : pyval) (prayers : dict) :
  schedule_of data = Some prayers ->
  exists t, timings_of data = Some t /\ five_fields t = Some prayers.
Proof.
  unfold schedule_of. destruct (timings_of data) as [t|]; [|discriminate].
  intros H. exists t. auto.
Qed.

Lemma fetched_eq (e : env) :
  fetched e = Ok (fetch_result (network e [] (fetch_request e))).
Proof.
  unfold fetched.
  destruct (get_prayer_times_eq e start) as (ls & -> & _). reflexivity.
Qed.

(** ** The send *)

Lemma send_notification_eq (prayer_name prayer_time : string) (e : env) (w : world) :
  let rq := push_request e prayer_name prayer_time in
  let rp := network e (wire w) rq in
  send_notification prayer_name prayer_time e w =
  (Ok (delivered rp),
   mkWorld (stdout w ++ [send_report prayer_name prayer_time rp])
           (wire w ++ [rq])).
Proof.
  intros rq rp.
  unfold send_notification, try_except, bind, NTFY_TOPIC, requests_post, http.
  rewrite getenv_eq. fold (topic e). fold (push_request e prayer_name prayer_time).
  fold rq. fold rp.
  destruct rp as [c | r].
  { destruct c; reflexivity. }
  unfold raise_for_status. cbn [delivered send_report].
  destruct (http_error (status_code r)); reflexivity.
Qed.

Lemma notify_eq (prayer_name prayer_time : string) (e : env) (w : world) :
  let rq := push_request e prayer_name prayer_time in
  let bell := [Lit ("🔔 Time for " ++ prayer_name ++ "!")] in
  notify prayer_name prayer_time e w =
  (Ok tt,
   mkWorld (stdout w ++ [bell;
                         send_report prayer_name prayer_time
                                     (network e (wire w) rq)])
           (wire w ++ [rq])).
Proof.
  intros rq bell. unfold notify, bind, print.
  rewrite send_notification_eq. cbn [wire stdout ret].
  rewrite <- app_assoc. reflexivity.
Qed.

(** ** The loop *)

Lemma check_each_due (now : datetime) (prayer_name prayer_time : string)
    (rest : list (string * pyval)) (e : env) (w : world) :
  due now (prayer_name, VStr prayer_time) = true ->
  check_each now ((prayer_name, VStr prayer_time) :: rest) e w =
  notify prayer_name prayer_time e w.
Proof.
  unfold due. cbn [snd check_each]. unfold bind at 1. rewrite parse_time_eq.
  destruct (clock_time prayer_time) as [[h m]|]; [|discriminate].
  cbn [fst snd]. intros ->. reflexivity.
Qed.

Lemma check_each_passed_over (now : datetime) (entry : string * pyval)
    (rest : list (string * pyval)) (e : env) (w : world) :
  passed_over now entry = true ->
  check_each now (entry :: rest) e w = check_each now rest e w.
Proof.
  destruct entry as [name v]. unfold passed_over. cbn [snd].
  destruct v; try discriminate.
  cbn [check_each]. unfold bind at 1. rewrite parse_time_eq.
  destruct (clock_time s) as [[h m]|]; [|discriminate].
  cbn [fst snd]. intros H. apply negb_true_iff in H. now rewrite H.
Qed.

Lemma check_each_skip (now : datetime) (pre rest : list (string * pyval))
    (e : env) (w : world) :
  forallb (passed_over now) pre = true ->
  check_each now (pre ++ rest) e w = check_each now rest e w.
Proof.
  induction pre as [|entry pre IH]; [reflexivity|].
  cbn [forallb app]. intros H. apply andb_prop in H as [H1 H2].
  rewrite check_each_passed_over by assumption. auto.
Qed.

(** A time that does not read as two integers stops the loop with a
    [ValueError], a time that is no string with an [AttributeError]. *)
Lemma check_each_malformed (now : datetime) (prayer_name prayer_time : string)
    (rest : list (string * pyval)) (e : env) (w : world) :
  clock_time prayer_time = None ->
  check_each now ((prayer_name, VStr prayer_time) :: rest) e w =
  (Raise ValueError, w).
Proof.
  intros H. cbn [check_each]. unfold bind at 1.
  rewrite parse_time_eq, H. reflexivity.
Qed.

Lemma well_formed_due_or_passed (now : datetime) (entry : string * pyval) :
  well_formed entry -> passed_over now entry = negb (due now entry).
Proof.
  intros (t & Ht & Hw). unfold passed_over, due. rewrite Ht.
  destruct (is_hhmm_clock_time t Hw) as (h & m & -> & _). reflexivity.
Qed.

(** On well-formed entries the loop notifies of the first prayer that is
    due, and of none when none is. *)
Lemma check_each_first_due (now : datetime) (items : list (string * pyval))
    (e : env) (w : world) :
  Forall well_formed items ->
  match first_due now items with
  | Some (name, VStr t) => check_each now items e w = notify name t e w
  | Some (_, _) => False
  | None =>
      check_each now items e w = print [Lit "⏳ No prayer time right now"] e w
  end.
Proof.
  unfold first_due.
  induction 1 as [|entry items Hw _ IH]; [reflexivity|].
  cbn [find].
  destruct (due now entry) eqn:Hd.
  - destruct entry as [name v]. destruct Hw as (t & Ht & _).
    cbn [snd] in Ht. subst v. now apply check_each_due.
  - assert (Hp : passed_over now entry = true)
      by (rewrite well_formed_due_or_passed, Hd; auto).
    destruct (find (due now) items) as [[name v]|].
    + destruct v; try contradiction.
      now rewrite check_each_passed_over.
    + now rewrite check_each_passed_over.
Qed.

(** ** The run *)

Lemma schedule_nonempty (rp : reply) (prayers : dict) :
  fetch_result rp = Some prayers -> exists entry rest, prayers = entry :: rest.
Proof.
  intros H. apply fetch_result_schedule in H as (data & _ & H).
  apply schedule_of_shape in H as (t & _ & H).
  apply five_fields_shape in H as (f & d & a & m & i & -> & _). eauto.
Qed.

Lemma run_present (e : env) (prayers : dict) :
  fetch_result (network e [] (fetch_request e)) = Some prayers ->
  run e =
  check_each (clock e) prayers e
             (mkWorld [time_line e; schedule_line prayers] [fetch_request e]).
Proof.
  intros H. unfold run, check_and_notify, bind, datetime_now, print.
  cbn [stdout wire start app].
  destruct (get_prayer_times_eq e (mkWorld [time_line e] [])) as (ls & Hg & Hl).
  cbn [stdout wire app] in Hg, Hl. rewrite H in Hg, Hl. subst ls.
  fold (time_line e). rewrite Hg.
  destruct (schedule_nonempty _ _ H) as (entry & rest & ->).
  reflexivity.
Qed.

Lemma run_absent (e : env) :
  fetch_result (network e [] (fetch_request e)) = None ->
  exists l,
    diagnostic l /\
    run e =
    (Raise (SystemExit 1),
     mkWorld [time_line e; l; [Lit "Failed to fetch prayer times"]]
             [fetch_request e]).
Proof.
  intros H. unfold run, check_and_notify, bind, datetime_now, print.
  cbn [stdout wire start app].
  destruct (get_prayer_times_eq e (mkWorld [time_line e] [])) as (ls & Hg & Hl).
  cbn [stdout wire app] in Hg, Hl. rewrite H in Hg, Hl.
  destruct Hl as (l & -> & Hd). exists l. split; [exact Hd|].
  fold (time_line e). rewrite Hg. reflexivity.
Qed.

Lemma check_each_not_str (now : datetime) (prayer_name : string) (v : pyval)
    (rest : list (string * pyval)) (e : env) (w : world) :
  (forall t, v <> VStr t) ->
  check_each now ((prayer_name, v) :: rest) e w = (Raise AttributeError, w).
Proof.
  intros H. destruct v; try reflexivity. now destruct (H s).
Qed.

Lemma fetched_schedule (e : env) (prayers : dict) :
  fetched e = Ok (Some prayers) ->
  fetch_result (network e [] (fetch_request e)) = Some prayers.
Proof. rewrite fetched_eq. now intros [= ->]. Qed.

Lemma fetched_shape (e : env) (prayers : dict) :
  fetched e = Ok (Some prayers) ->
  exists f d a m i,
    prayers = [("Fajr", f); ("Dhuhr", d); ("Asr", a); ("Maghrib", m); ("Isha", i)].
Proof.
  intros H. apply fetched_schedule, fetch_result_schedule in H as (data & _ & H).
  apply schedule_of_shape in H as (t & _ & H).
  apply five_fields_shape in H as (f & d & a & m & i & -> & _). eauto 6.
Qed.

(** A run whose loop notifies: the lines and the requests it leaves. *)
Lemma run_notifies (e : env) (prayers : dict) (name t : string) :
  fetched e = Ok (Some prayers) ->
  check_each (clock e) prayers e
    (mkWorld [time_line e; schedule_line prayers] [fetch_request e])
  = notify name t e
      (mkWorld [time_line e; schedule_line prayers] [fetch_request e]) ->
  run e =
  (Ok tt,
   mkWorld [time_line e; schedule_line prayers;
            [Lit ("🔔 Time for " ++ name ++ "!")];
            send_report name t
              (network e [fetch_request e] (push_request e name t))]
           [fetch_request e; push_request e name t]).
Proof.
  intros Hf Hc. rewrite (run_present e prayers) by now apply fetched_schedule.
  rewrite Hc, notify_eq. reflexivity.
Qed.

(** A run whose loop passes over every prayer. *)
Lemma run_idle (e : env) (prayers : dict) :
  fetched e = Ok (Some prayers) ->
  forallb (passed_over (clock e)) prayers = true ->
  run e =
  (Ok tt,
   mkWorld [time_line e; schedule_line prayers;
            [Lit "⏳ No prayer time right now"]]
           [fetch_request e]).
Proof.
  intros Hf Hp. rewrite (run_present e prayers) by now apply fetched_schedule.
  pose proof (check_each_skip (clock e) prayers [] e
                (mkWorld [time_line e; schedule_line prayers] [fetch_request e])
                Hp) as H.
  rewrite app_nil_r in H. rewrite H. reflexivity.
Qed.

(** ** The properties of the specification *)

(** C1: for a fetched schedule of five well-formed [HH:MM] entries, a run
    sends at most one notification: the schedule lists the prayers in the
    order Fajr, Dhuhr, Asr, Maghrib, Isha; the run ends normally; when some
    prayer is due, the first one in that order is announced and pushed, in
    one POST, and nothing follows it (the remaining prayers add no line and
    no request); when none is due, nothing is sent. *)
Theorem at_most_one_notification (e : env) (prayers : dict) :
  fetched e = Ok (Some prayers) ->
  Forall well_formed prayers ->
  map fst (Py.items prayers) = prayer_names /\
  fst (run e) = Ok tt /\
  (List.length (sent (snd (run e))) <= 1)%nat /\
  match first_due (clock e) prayers with
  | Some (name, time) =>
      exists t,
        time = VStr t /\
        sent (snd (run e)) = [push_request e name t] /\
        snd (run e) =
        mkWorld [time_line e; schedule_line prayers;
                 [Lit ("🔔 Time for " ++ name ++ "!")];
                 send_report name t
                   (network e [fetch_request e] (push_request e name t))]
                [fetch_request e; push_request e name t]
  | None =>
      sent (snd (run e)) = [] /\
      snd (run e) =
      mkWorld [time_line e; schedule_line prayers;
               [Lit "⏳ No prayer time right now"]]
              [fetch_request e]
  end.
Proof.
  intros Hf Hw.
  split.
  { destruct (fetched_shape e prayers Hf) as (f & d & a & m & i & ->).
    reflexivity. }
  pose proof (check_each_first_due (clock e) prayers e
                (mkWorld [time_line e; schedule_line prayers] [fetch_request e])
                Hw) as Hl.
  destruct (first_due (clock e) prayers) as [[name time]|].
  - destruct time as [| | | |t| |]; try contradiction.
    rewrite (run_notifies e prayers name t Hf Hl). cbn [fst snd].
    repeat split; [cbn; lia|].
    exists t. repeat split.
  - rewrite (run_present e prayers) by now apply fetched_schedule.
    rewrite Hl. cbn. repeat split. lia.
Qed.

Lemma at_most_one_notification_witness :
  let twins := schedule "05:00" "12:10" "12:10" "17:58" "19:20" in
  fetched at_twins = Ok (Some twins) /\
  Forall well_formed twins /\
  first_due (clock at_twins) twins = Some ("Dhuhr", VStr "12:10") /\
  sent (snd (run at_twins)) = [push_request at_twins "Dhuhr" "12:10"].
Proof.
  intros twins.
  assert (Hw : Forall well_formed twins).
  { repeat constructor; eexists; (split; reflexivity). }
  split; [reflexivity|]. split; [exact Hw|]. split; [reflexivity|].
  destruct (at_most_one_notification at_twins twins eq_refl Hw)
    as (_ & _ & _ & H).
  change (first_due (clock at_twins) twins)
    with (Some ("Dhuhr", VStr "12:10")) in H.
  destruct H as (t & Ht & Hs & _).
  injection Ht as <-. exact Hs.
Defined.

Lemma matches_iff (now : datetime) (ph pm : Z) :
  matches now ph pm = true <->
  hour now = ph /\ Z.abs (minute now - pm) <= 5.
Proof.
  unfold matches, NOTIFICATION_WINDOW.
  rewrite andb_true_iff, Z.eqb_eq, Z.leb_le. reflexivity.
Qed.

(** C2: a prayer whose time is the well-formed string [h1 h2 : m1 m2],
    which the loop parses to the hour and the minute the digits write,
    matches exactly when the hour of the clock equals its hour and the
    minutes are at most 5 apart: then the loop invokes the sender with the
    prayer's name and time, otherwise it goes on to the next prayer.  At
    05:03 Fajr at 05:00 matches and the sender is invoked with Fajr and
    05:00; at 05:10 Fajr at 05:00 does not match. *)
Theorem match_condition (now : datetime) (name : string)
    (h1 h2 m1 m2 : ascii) (a b x y : Z)
    (rest : list (string * pyval)) (e : env) (w : world) :
  Py.digit_of h1 = Some a -> Py.digit_of h2 = Some b ->
  Py.digit_of m1 = Some x -> Py.digit_of m2 = Some y ->
  let t := String h1 (String h2 (String ":" (String m1 (String m2 EmptyString)))) in
  let ph := 10 * a + b in
  let pm := 10 * x + y in
  parse_time t e w = (Ok (ph, pm), w) /\
  (matches now ph pm = true <->
   hour now = ph /\ Z.abs (minute now - pm) <= 5) /\
  (hour now = ph /\ Z.abs (minute now - pm) <= 5 ->
   check_each now ((name, VStr t) :: rest) e w = notify name t e w) /\
  (~ (hour now = ph /\ Z.abs (minute now - pm) <= 5) ->
   check_each now ((name, VStr t) :: rest) e w = check_each now rest e w) /\
  check_each (mkDatetime 5 3) (("Fajr", VStr "05:00") :: rest) e w
  = notify "Fajr" "05:00" e w /\
  check_each (mkDatetime 5 10) (("Fajr", VStr "05:00") :: rest) e w
  = check_each (mkDatetime 5 10) rest e w.
Proof.
  intros Ha Hb Hx Hy t ph pm.
  pose proof (hhmm_clock_time _ _ _ _ _ _ _ _ Ha Hb Hx Hy) as Hc.
  fold t ph pm in Hc.
  split; [now rewrite parse_time_eq, Hc|].
  split; [apply matches_iff|].
  split; [|split; [|split]].
  - intros H. apply check_each_due. unfold due. cbn [snd].
    rewrite Hc. now apply matches_iff.
  - intros H. apply check_each_passed_over. unfold passed_over. cbn [snd].
    rewrite Hc. apply negb_true_iff, not_true_is_false.
    now rewrite matches_iff.
  - now apply check_each_due.
  - now apply check_each_passed_over.
Qed.

Lemma match_condition_witness :
  parse_time "05:00" at_fajr start = (Ok (5, 0), start) /\
  check_each (clock at_fajr) [("Fajr", VStr "05:00")] at_fajr start
  = notify "Fajr" "05:00" at_fajr start /\
  sent (snd (run at_fajr)) = [push_request at_fajr "Fajr" "05:00"] /\
  sent (snd (run after_fajr)) = [].
Proof.
  pose proof (match_condition (clock at_fajr) "Fajr" "0" "5" "0" "0" 0 5 0 0
                [] at_fajr start eq_refl eq_refl eq_refl eq_refl) as H.
  cbv zeta in H. destruct H as (Hp & _ & Hy & _).
  split; [exact Hp|]. split; [|split; reflexivity].
  apply Hy. cbn. lia.
Defined.

(** C3: the fetch never raises and issues its one request, once.  When
    the transport fails, the HTTP status is an error, the body is no JSON,
    the status code field is missing or not 200, or the data, the timings
    or one of the five names is missing, it prints one diagnostic line and
    returns [None]; the run then ends with exit status 1 after that single
    request. *)
Theorem fetch_failure_is_absent (e : env) (w : world) :
  let rq := fetch_request e in
  (exists r ls,
     get_prayer_times e w
     = (Ok r, mkWorld (stdout w ++ ls) (wire w ++ [rq]))) /\
  (fetch_failure (network e (wire w) rq) ->
   exists l,
     diagnostic l /\
     get_prayer_times e w
     = (Ok None, mkWorld (stdout w ++ [l]) (wire w ++ [rq]))) /\
  (fetch_failure (network e [] rq) ->
   exit_status (fst (run e)) = 1 /\ wire (snd (run e)) = [rq]).
Proof.
  intros rq.
  destruct (get_prayer_times_eq e w) as (ls & Hg & Hl).
  split; [eauto|]. split.
  - intros H. apply fetch_failure_result in H. fold rq in Hg, Hl.
    rewrite H in Hg, Hl. destruct Hl as (l & -> & Hd). eauto.
  - intros H. apply fetch_failure_result in H.
    destruct (run_absent e H) as (l & _ & ->). split; reflexivity.
Qed.

Lemma fetch_failure_is_absent_witness :
  fetch_failure (network api_error [] (fetch_request api_error)) /\
  get_prayer_times api_error start
  = (Ok None,
     mkWorld [[Lit "API returned error code: "; Str (VInt 404)]]
             [fetch_request api_error]) /\
  exit_status (fst (run api_error)) = 1.
Proof.
  assert (F : fetch_failure (network api_error [] (fetch_request api_error))).
  { eapply code_not_200; reflexivity. }
  split; [exact F|]. split; [reflexivity|].
  exact (proj1 (proj2 (proj2 (fetch_failure_is_absent api_error start)) F)).
Defined.

(** C4: when the fetch returns [None], as it does on every failure of
    the fetch and so when the status code field of the body is not 200, the
    run reports the failure and ends with exit status 1, and nothing is
    sent: the fetch is the only request on the wire. *)
Theorem absent_fetch_exits_with_1 (e : env) :
  fetched e = Ok None \/ fetch_failure (network e [] (fetch_request e)) ->
  fetched e = Ok None /\
  fst (run e) = Raise (SystemExit 1) /\
  exit_status (fst (run e)) = 1 /\
  sent (snd (run e)) = [] /\
  wire (snd (run e)) = [fetch_request e] /\
  last (stdout (snd (run e))) [] = [Lit "Failed to fetch prayer times"].
Proof.
  rewrite fetched_eq. intros H.
  assert (Hn : fetch_result (network e [] (fetch_request e)) = None).
  { destruct H as [[= H] | H]; [exact H | now apply fetch_failure_result]. }
  destruct (run_absent e Hn) as (l & _ & ->).
  rewrite Hn. repeat split.
Qed.

Lemma absent_fetch_exits_with_1_witness :
  fetch_failure (network api_error [] (fetch_request api_error)) /\
  fetched api_error = Ok None /\
  exit_status (fst (run api_error)) = 1 /\
  sent (snd (run api_error)) = [].
Proof.
  assert (F : fetch_failure (network api_error [] (fetch_request api_error))).
  { eapply code_not_200; reflexivity. }
  split; [exact F|].
  destruct (absent_fetch_exits_with_1 api_error (or_intror F))
    as (H0 & _ & H1 & H2 & _).
  repeat split; assumption.
Defined.

(** C5: when a prayer matches and the send fails, by a transport failure
    or an error status, [send_notification] prints the error and returns
    [False], and the run still ends normally, with exit status 0. *)
Theorem failed_send_is_not_fatal (e : env) (prayers : dict)
    (pre post : list (string * pyval)) (name t : string) :
  fetched e = Ok (Some prayers) ->
  prayers = (pre ++ (name, VStr t) :: post)%list ->
  forallb (passed_over (clock e)) pre = true ->
  due (clock e) (name, VStr t) = true ->
  send_failure (network e [fetch_request e] (push_request e name t)) ->
  let before :=
    mkWorld [time_line e; schedule_line prayers;
             [Lit ("🔔 Time for " ++ name ++ "!")]]
            [fetch_request e] in
  exists x,
    send_notification name t e before
    = (Ok false,
       mkWorld (stdout before ++ [[Lit "❌ Error sending notification: "; ExnStr x]])
               [fetch_request e; push_request e name t]) /\
    run e
    = (Ok tt, snd (send_notification name t e before)) /\
    exit_status (fst (run e)) = 0.
Proof.
  intros Hf -> Hp Hd Hs before.
  assert (Hr := run_notifies e _ name t Hf).
  rewrite check_each_skip, check_each_due in Hr by assumption.
  specialize (Hr eq_refl).
  rewrite Hr. subst before. rewrite send_notification_eq. cbn [wire stdout app snd fst].
  destruct Hs as [c | r Hs].
  - exists (transport_exn c). repeat split.
  - exists (HTTPError (status_code r)). cbn [delivered send_report].
    rewrite Hs. repeat split.
Qed.

Lemma failed_send_is_not_fatal_witness :
  send_failure (network push_down [fetch_request push_down]
                        (push_request push_down "Fajr" "05:00")) /\
  send_notification "Fajr" "05:00" push_down start
  = (Ok false,
     mkWorld [[Lit "❌ Error sending notification: "; ExnStr (HTTPError 503)]]
             [push_request push_down "Fajr" "05:00"]) /\
  exit_status (fst (run push_down)) = 0.
Proof.
  assert (F : send_failure (network push_down [fetch_request push_down]
                                    (push_request push_down "Fajr" "05:00"))).
  { apply send_status_bad. reflexivity. }
  split; [exact F|]. split; [reflexivity|].
  destruct (failed_send_is_not_fatal push_down _ []
              [("Dhuhr", VStr "12:10"); ("Asr", VStr "15:30");
               ("Maghrib", VStr "17:58"); ("Isha", VStr "19:20")]
              "Fajr" "05:00" eq_refl eq_refl eq_refl eq_refl F)
    as (x & _ & _ & H).
  exact H.
Defined.

(** C6: a prayer whose hour differs from the hour of the clock does not
    match, however close the minutes; a run over a schedule whose hours
    all differ from the hour of the clock sends nothing.  So a prayer at
    23:58 does not match at 00:02. *)
Theorem other_hour_never_matches (e : env) (prayers : dict) :
  fetched e = Ok (Some prayers) ->
  Forall (fun entry =>
            exists t ph pm,
              snd entry = VStr t /\ clock_time t = Some (ph, pm) /\
              hour (clock e) <> ph) prayers ->
  (forall ph pm, hour (clock e) <> ph -> matches (clock e) ph pm = false) /\
  first_due (clock e) prayers = None /\
  sent (snd (run e)) = [] /\
  run e =
  (Ok tt,
   mkWorld [time_line e; schedule_line prayers;
            [Lit "⏳ No prayer time right now"]]
           [fetch_request e]) /\
  clock_time "23:58" = Some (23, 58) /\
  matches (mkDatetime 0 2) 23 58 = false /\
  (forall name rest e' w,
     check_each (mkDatetime 0 2) ((name, VStr "23:58") :: rest) e' w
     = check_each (mkDatetime 0 2) rest e' w).
Proof.
  intros Hf Hh.
  assert (Hm : forall ph pm, hour (clock e) <> ph -> matches (clock e) ph pm = false).
  { intros ph pm H. unfold matches.
    apply Z.eqb_neq in H. now rewrite H. }
  assert (Hp : forallb (passed_over (clock e)) prayers = true).
  { apply forallb_forall. intros entry Hi.
    rewrite Forall_forall in Hh.
    destruct (Hh entry Hi) as (t & ph & pm & Ht & Hc & Hn).
    unfold passed_over. rewrite Ht, Hc, Hm by assumption. reflexivity. }
  assert (Hd : first_due (clock e) prayers = None).
  { unfold first_due. destruct (find (due (clock e)) prayers) as [entry|] eqn:E;
      [|reflexivity].
    apply find_some in E as [Hi E].
    rewrite forallb_forall in Hp. specialize (Hp entry Hi).
    unfold due in E. unfold passed_over in Hp.
    destruct (snd entry); try discriminate.
    destruct (clock_time s) as [[h m]|]; try discriminate.
    rewrite E in Hp. discriminate. }
  rewrite (run_idle e prayers Hf Hp).
  repeat split; assumption.
Qed.

Lemma other_hour_never_matches_witness :
  fetched after_midnight
  = Ok (Some [("Fajr", VStr "04:40"); ("Dhuhr", VStr "12:10");
              ("Asr", VStr "15:30"); ("Maghrib", VStr "18:05");
              ("Isha", VStr "23:58")]) /\
  clock after_midnight = mkDatetime 0 2 /\
  sent (snd (run after_midnight)) = [].
Proof.
  split; [reflexivity|]. split; [reflexivity|].
  refine (proj1 (proj2 (proj2 (other_hour_never_matches after_midnight _ eq_refl _)))).
  repeat constructor; cbn [snd];
    [ exists "04:40", 4, 40 | exists "12:10", 12, 10 | exists "15:30", 15, 30
    | exists "18:05", 18, 5 | exists "23:58", 23, 58 ];
    (split; [reflexivity | split; [reflexivity | cbn; lia]]).
Defined.

Lemma returned_schedule (e : env) (w : world) (r : option dict) :
  fst (get_prayer_times e w) = Ok r ->
  fetch_result (network e (wire w) (fetch_request e)) = r.
Proof.
  destruct (get_prayer_times_eq e w) as (ls & -> & _). cbn [fst].
  now intros [= ->].
Qed.

(** C7: for a response whose transport and HTTP status are fine and whose
    status code field is 200, the fetch raises nothing; a schedule it
    returns consists of exactly the fields Fajr, Dhuhr, Asr, Maghrib, Isha
    of the nested timings object, under these names and in this order, and
    nothing else; and when the timings object has these five fields, that
    schedule is returned, with nothing printed. *)
Theorem fetch_returns_the_five_fields (e : env) (w : world) (data : pyval) :
  fetch_success (network e (wire w) (fetch_request e)) data ->
  (exists r, fst (get_prayer_times e w) = Ok r) /\
  (forall prayers,
     fst (get_prayer_times e w) = Ok (Some prayers) ->
     exists t f d a m i,
       timings_of data = Some t /\
       field t "Fajr" = Some f /\ field t "Dhuhr" = Some d /\
       field t "Asr" = Some a /\ field t "Maghrib" = Some m /\
       field t "Isha" = Some i /\
       prayers
       = [("Fajr", f); ("Dhuhr", d); ("Asr", a); ("Maghrib", m); ("Isha", i)]) /\
  (forall t f d a m i,
     timings_of data = Some t ->
     field t "Fajr" = Some f -> field t "Dhuhr" = Some d ->
     field t "Asr" = Some a -> field t "Maghrib" = Some m ->
     field t "Isha" = Some i ->
     get_prayer_times e w
     = (Ok (Some [("Fajr", f); ("Dhuhr", d); ("Asr", a); ("Maghrib", m);
                  ("Isha", i)]),
        mkWorld (stdout w) (wire w ++ [fetch_request e]))).
Proof.
  intros Hs. pose proof (fetch_success_result _ _ Hs) as Hr.
  destruct (get_prayer_times_eq e w) as (ls & Hg & Hl).
  split; [rewrite Hg; cbn [fst]; eauto|]. split.
  - intros prayers Hp. apply returned_schedule in Hp. rewrite Hr in Hp.
    apply schedule_of_shape in Hp as (t & Ht & Hp).
    apply five_fields_shape in Hp as (f & d & a & m & i & -> & H).
    exists t, f, d, a, m, i. intuition.
  - intros t f d a m i Ht Hf Hd Ha Hm Hi.
    assert (E : schedule_of data
                = Some [("Fajr", f); ("Dhuhr", d); ("Asr", a); ("Maghrib", m);
                        ("Isha", i)]).
    { unfold schedule_of. rewrite Ht. unfold five_fields.
      now rewrite Hf, Hd, Ha, Hm, Hi. }
    rewrite Hr, E in Hg, Hl. subst ls. rewrite app_nil_r in Hg. exact Hg.
Qed.

Lemma fetch_returns_the_five_fields_witness :
  fetch_success (network at_fajr [] (fetch_request at_fajr))
                (sample_body (VInt 200) usual_day) /\
  get_prayer_times at_fajr start
  = (Ok (Some [("Fajr", VStr "05:00"); ("Dhuhr", VStr "12:10");
               ("Asr", VStr "15:30"); ("Maghrib", VStr "17:58");
               ("Isha", VStr "19:20")]),
     mkWorld [] [fetch_request at_fajr]).
Proof.
  assert (S : fetch_success (network at_fajr (wire start) (fetch_request at_fajr))
                            (sample_body (VInt 200) usual_day)).
  { exists (mkResponse 200 (Some (sample_body (VInt 200) usual_day))), (VInt 200).
    repeat split. }
  split; [exact S|].
  exact (proj2 (proj2 (fetch_returns_the_five_fields at_fajr start _ S))
           usual_day _ _ _ _ _ eq_refl eq_refl eq_refl eq_refl eq_refl eq_refl).
Defined.

(** C8: the loop does not guard the parse.  There is a fetched schedule
    with a time that is not of the form [HH:MM] on which the run ends with
    an unhandled [ValueError].  In general, when the loop reaches (past
    prayers it passes over) a time of ASCII text that does not split into
    two integers, the run ends with an unhandled [ValueError], exit status
    1, and nothing is sent; a time that is no string ends it with an
    [AttributeError]. *)
Theorem malformed_time_fails_the_run :
  (exists e prayers name t,
     fetched e = Ok (Some prayers) /\
     In (name, VStr t) prayers /\ is_hhmm t = false /\
     fst (run e) = Raise ValueError /\ exit_status (fst (run e)) = 1) /\
  (forall e prayers pre post name t,
     fetched e = Ok (Some prayers) ->
     prayers = (pre ++ (name, VStr t) :: post)%list ->
     forallb (passed_over (clock e)) pre = true ->
     is_ascii t = true ->
     clock_time t = None ->
     run e
     = (Raise ValueError,
        mkWorld [time_line e; schedule_line prayers] [fetch_request e]) /\
     exit_status (fst (run e)) = 1 /\ sent (snd (run e)) = []) /\
  (forall e prayers pre post name v,
     fetched e = Ok (Some prayers) ->
     prayers = (pre ++ (name, v) :: post)%list ->
     forallb (passed_over (clock e)) pre = true ->
     (forall t, v <> VStr t) ->
     run e
     = (Raise AttributeError,
        mkWorld [time_line e; schedule_line prayers] [fetch_request e]) /\
     exit_status (fst (run e)) = 1 /\ sent (snd (run e)) = []).
Proof.
  split; [|split].
  - exists annotated,
      [("Fajr", VStr "05:00"); ("Dhuhr", VStr "12:10 (+04)");
       ("Asr", VStr "15:30"); ("Maghrib", VStr "17:58"); ("Isha", VStr "19:20")],
      "Dhuhr", "12:10 (+04)".
    repeat split. right. left. reflexivity.
  - intros e prayers pre post name t Hf -> Hp _ Hc.
    rewrite (run_present e _ (fetched_schedule e _ Hf)).
    rewrite check_each_skip, check_each_malformed by assumption.
    repeat split.
  - intros e prayers pre post name v Hf -> Hp Hv.
    rewrite (run_present e _ (fetched_schedule e _ Hf)).
    rewrite check_each_skip, check_each_not_str by assumption.
    repeat split.
Qed.

Lemma malformed_time_fails_the_run_witness :
  is_ascii "12:10 (+04)" = true /\
  clock_time "12:10 (+04)" = None /\
  run annotated
  = (Raise ValueError,
     mkWorld [time_line annotated;
              schedule_line
                [("Fajr", VStr "05:00"); ("Dhuhr", VStr "12:10 (+04)");
                 ("Asr", VStr "15:30"); ("Maghrib", VStr "17:58");
                 ("Isha", VStr "19:20")]]
             [fetch_request annotated]).
Proof.
  split; [reflexivity|]. split; [reflexivity|].
  exact (proj1 (proj1 (proj2 malformed_time_fails_the_run)
                  annotated _ [("Fajr", VStr "05:00")]
                  [("Asr", VStr "15:30"); ("Maghrib", VStr "17:58");
                   ("Isha", VStr "19:20")]
                  "Dhuhr" "12:10 (+04)" eq_refl eq_refl eq_refl eq_refl eq_refl)).
Defined.

(** C9: whatever the prayer name and the time, the one request of
    [send_notification] is a POST to the push endpoint of the configured
    topic, whose JSON body has exactly five fields: the topic, a title made
    of the mosque glyph, the prayer name and the word Time, a message made
    of the prayer name and the time, the priority 5 and the two tags mosque
    and pray. *)
Theorem notification_request (prayer_name prayer_time : string)
    (e : env) (w : world) :
  NTFY_TOPIC e w = (Ok (topic e), w) /\
  wire (snd (send_notification prayer_name prayer_time e w))
  = (wire w ++
    [POST ("https://ntfy.sh/" ++ topic e)%string
          (VDict
             [("topic", VStr (topic e));
              ("title", VStr ("🕌 " ++ prayer_name ++ " Time"));
              ("message",
               VStr ("It's time for " ++ prayer_name ++ " prayer ("
                     ++ prayer_time ++ ")"));
              ("priority", VInt 5);
              ("tags", VList [VStr "mosque"; VStr "pray"])])
          10])%list.
Proof.
  split; [reflexivity|].
  rewrite send_notification_eq. reflexivity.
Qed.

(** C10: every schedule the fetch returns is the dict display of the
    five prayers, with exactly the keys Fajr, Dhuhr, Asr, Maghrib, Isha in
    this insertion order; and the loop of a run takes the items of the
    fetched schedule in this order, from Fajr to Isha: the prayer it
    notifies of is the first one that is due, after prayers it has read
    and passed over, whatever follows it; a time that is no string stops
    the run where the loop reaches it, after prayers it has passed over;
    and only when every prayer from Fajr to Isha has been passed over
    does the run report that no prayer is due. *)
Theorem schedule_in_enumeration_order (e : env) :
  (forall w prayers,
     fst (get_prayer_times e w) = Ok (Some prayers) ->
     exists f d a m i,
       prayers
       = Py.dict_display
           [("Fajr", f); ("Dhuhr", d); ("Asr", a); ("Maghrib", m); ("Isha", i)]
       /\ Py.items prayers
          = [("Fajr", f); ("Dhuhr", d); ("Asr", a); ("Maghrib", m); ("Isha", i)]
       /\ Py.keys prayers = prayer_names) /\
  (forall prayers,
     fetched e = Ok (Some prayers) ->
     let before := mkWorld [time_line e; schedule_line prayers] [fetch_request e] in
     (exists f d a m i,
        run e
        = check_each (clock e)
            [("Fajr", f); ("Dhuhr", d); ("Asr", a); ("Maghrib", m); ("Isha", i)]
            e before) /\
     (forall pre post name t,
        Py.items prayers = (pre ++ (name, VStr t) :: post)%list ->
        forallb (passed_over (clock e)) pre = true ->
        due (clock e) (name, VStr t) = true ->
        run e
        = (Ok tt,
           mkWorld (stdout before ++
                    [[Lit ("🔔 Time for " ++ name ++ "!")];
                     send_report name t
                       (network e [fetch_request e] (push_request e name t))])
                   [fetch_request e; push_request e name t])) /\
     (forall pre post name v,
        Py.items prayers = (pre ++ (name, v) :: post)%list ->
        forallb (passed_over (clock e)) pre = true ->
        (forall t, v <> VStr t) ->
        run e = (Raise AttributeError, before)) /\
     (forallb (passed_over (clock e)) (Py.items prayers) = true ->
      run e
      = (Ok tt,
         mkWorld (stdout before ++ [[Lit "⏳ No prayer time right now"]])
                 [fetch_request e]))).
Proof.
  split.
  - intros w prayers H. apply returned_schedule in H.
    apply fetch_result_schedule in H as (data & _ & H).
    apply schedule_of_shape in H as (t & _ & H).
    apply five_fields_shape in H as (f & d & a & m & i & -> & _).
    exists f, d, a, m, i. repeat split.
  - intros prayers H before. subst before. unfold Py.items.
    split; [|split; [|split]].
    + destruct (fetched_shape e prayers H) as (f & d & a & m & i & E).
      exists f, d, a, m, i. rewrite <- E.
      now apply run_present, fetched_schedule.
    + intros pre post name t -> Hp Hd.
      rewrite (run_present e _ (fetched_schedule e _ H)).
      rewrite check_each_skip, check_each_due by assumption.
      rewrite notify_eq. reflexivity.
    + intros pre post name v -> Hp Hv.
      rewrite (run_present e _ (fetched_schedule e _ H)).
      now rewrite check_each_skip, check_each_not_str by assumption.
    + intros Hp. now apply run_idle.
Qed.

Lemma schedule_in_enumeration_order_witness :
  let twins := schedule "05:00" "12:10" "12:10" "17:58" "19:20" in
  fetched at_twins = Ok (Some twins) /\
  due (clock at_twins) ("Dhuhr", VStr "12:10") = true /\
  due (clock at_twins) ("Asr", VStr "12:10") = true /\
  sent (snd (run at_twins)) = [push_request at_twins "Dhuhr" "12:10"].
Proof.
  intros twins.
  split; [reflexivity|]. split; [reflexivity|]. split; [reflexivity|].
  destruct (proj2 (schedule_in_enumeration_order at_twins) twins eq_refl)
    as (_ & H & _).
  rewrite (H [("Fajr", VStr "05:00")]
             [("Asr", VStr "12:10"); ("Maghrib", VStr "17:58");
              ("Isha", VStr "19:20")]
             "Dhuhr" "12:10" eq_refl eq_refl eq_refl).
  reflexivity.
Defined.

(** ** Every run, whatever the schedule *)

Lemma check_each_verdict (now : datetime) (items : list (string * pyval))
    (e : env) (w : world) :
  check_each now items e w =
  match loop_verdict now items with
  | Notify name t => notify name t e w
  | Idle => print [Lit "⏳ No prayer time right now"] e w
  | Crash x => (Raise x, w)
  end.
Proof.
  induction items as [|[name v] rest IH]; [reflexivity|].
  destruct v; try reflexivity.
  cbn [check_each loop_verdict]. unfold bind at 1. rewrite parse_time_eq.
  destruct (clock_time s) as [[h m]|]; [|reflexivity].
  cbn [fst snd]. destruct (matches now h m); [reflexivity | exact IH].
Qed.

Lemma verdict_notify (now : datetime) (items : list (string * pyval))
    (name t : string) :
  loop_verdict now items = Notify name t ->
  exists pre post,
    items = (pre ++ (name, VStr t) :: post)%list /\
    forallb (passed_over now) pre = true /\
    due now (name, VStr t) = true.
Proof.
  induction items as [|[n v] rest IH]; [discriminate|].
  destruct v; try discriminate.
  cbn [loop_verdict].
  destruct (clock_time s) as [[h m]|] eqn:Hc; [|discriminate].
  destruct (matches now h m) eqn:Hm.
  - intros [= -> ->]. exists [], rest. repeat split.
    unfold due. cbn [snd]. now rewrite Hc.
  - intros H. destruct (IH H) as (pre & post & -> & Hp & Hd).
    exists ((n, VStr s) :: pre), post. repeat split; [|exact Hd].
    cbn [forallb]. rewrite Hp. unfold passed_over. cbn [snd].
    now rewrite Hc, Hm.
Qed.

Lemma verdict_idle (now : datetime) (items : list (string * pyval)) :
  loop_verdict now items = Idle -> forallb (passed_over now) items = true.
Proof.
  induction items as [|[n v] rest IH]; [reflexivity|].
  destruct v; try discriminate.
  cbn [loop_verdict forallb].
  destruct (clock_time s) as [[h m]|] eqn:Hc; [|discriminate].
  destruct (matches now h m) eqn:Hm; [discriminate|].
  intros H. rewrite (IH H). unfold passed_over. cbn [snd].
  now rewrite Hc, Hm.
Qed.

Lemma verdict_crash (now : datetime) (items : list (string * pyval)) (x : exn) :
  loop_verdict now items = Crash x -> x = ValueError \/ x = AttributeError.
Proof.
  induction items as [|[n v] rest IH]; [discriminate|].
  destruct v; cbn [loop_verdict]; try (intros [= <-]; now right).
  destruct (clock_time s) as [[h m]|]; [|intros [= <-]; now left].
  destruct (matches now h m); [discriminate | exact IH].
Qed.

Lemma verdict_of_match (now : datetime) (pre post : list (string * pyval))
    (name t : string) :
  forallb (passed_over now) pre = true ->
  due now (name, VStr t) = true ->
  loop_verdict now (pre ++ (name, VStr t) :: post) = Notify name t.
Proof.
  intros Hp Hd. induction pre as [|[n v] pre IH].
  - unfold due in Hd. cbn [snd] in Hd. cbn [app loop_verdict].
    destruct (clock_time t) as [[h m]|]; [|discriminate]. now rewrite Hd.
  - cbn [forallb] in Hp. apply andb_prop in Hp as [H1 H2].
    unfold passed_over in H1. cbn [snd] in H1.
    destruct v; try discriminate.
    cbn [app loop_verdict].
    destruct (clock_time s) as [[h m]|]; [|discriminate].
    apply negb_true_iff in H1. rewrite H1. auto.
Qed.

(** A run on a fetched schedule, by the verdict of its loop. *)
Lemma run_verdict (e : env) (prayers : dict) :
  fetched e = Ok (Some prayers) ->
  run e =
  match loop_verdict (clock e) prayers with
  | Notify name t =>
      (Ok tt,
       mkWorld [time_line e; schedule_line prayers;
                [Lit ("🔔 Time for " ++ name ++ "!")];
                send_report name t
                  (network e [fetch_request e] (push_request e name t))]
               [fetch_request e; push_request e name t])
  | Idle =>
      (Ok tt,
       mkWorld [time_line e; schedule_line prayers;
                [Lit "⏳ No prayer time right now"]]
               [fetch_request e])
  | Crash x =>
      (Raise x, mkWorld [time_line e; schedule_line prayers] [fetch_request e])
  end.
Proof.
  intros Hf. rewrite (run_present e prayers) by now apply fetched_schedule.
  rewrite check_each_verdict.
  destruct (loop_verdict (clock e) prayers) as [name t| |x]; try reflexivity.
  now rewrite notify_eq.
Qed.

Lemma fetched_cases (e : env) :
  fetched e = Ok None \/ exists prayers, fetched e = Ok (Some prayers).
Proof.
  rewrite fetched_eq.
  destruct (fetch_result _) as [prayers|]; [right; eauto | now left].
Qed.

Lemma fetched_absent_run (e : env) :
  fetched e = Ok None ->
  exists l,
    diagnostic l /\
    run e =
    (Raise (SystemExit 1),
     mkWorld [time_line e; l; [Lit "Failed to fetch prayer times"]]
             [fetch_request e]).
Proof.
  rewrite fetched_eq. intros [= H]. now apply run_absent.
Qed.

Lemma scheduled_name (prayers : dict) (pre post : list (string * pyval))
    (name : string) (v : pyval) :
  map fst prayers = prayer_names ->
  prayers = (pre ++ (name, v) :: post)%list ->
  In name prayer_names.
Proof.
  intros <- ->. rewrite map_app. apply in_or_app. right. now left.
Qed.

Lemma fetched_names (e : env) (prayers : dict) :
  fetched e = Ok (Some prayers) -> map fst prayers = prayer_names.
Proof.
  intros H. destruct (fetched_shape e prayers H) as (f & d & a & m & i & ->).
  reflexivity.
Qed.

(** X1: every run ends with exit status 0 or 1.  It is 0 exactly when
    the run returns normally; when it is 1 the fetch failed
    ([SystemExit]) or the loop stopped on a time it could not read
    ([ValueError], [AttributeError]), and no notification was sent. *)
Theorem exit_status_is_0_or_1 (e : env) :
  (fst (run e) = Ok tt /\ exit_status (fst (run e)) = 0) \/
  (exit_status (fst (run e)) = 1 /\
   sent (snd (run e)) = [] /\
   (fst (run e) = Raise (SystemExit 1) /\ fetched e = Ok None \/
    (exists prayers, fetched e = Ok (Some prayers)) /\
    (fst (run e) = Raise ValueError \/ fst (run e) = Raise AttributeError))).
Proof.
  destruct (fetched_cases e) as [Hn | [prayers Hf]].
  - right. destruct (fetched_absent_run e Hn) as (l & _ & ->).
    repeat split. now left.
  - rewrite (run_verdict e prayers Hf).
    destruct (loop_verdict (clock e) prayers) as [name t| |x] eqn:Hv.
    + left. split; reflexivity.
    + left. split; reflexivity.
    + right. cbn [fst snd].
      destruct (verdict_crash _ _ _ Hv) as [-> | ->];
        (repeat split; right; split; [eauto | auto]).
Qed.

(** X2: whatever the schedule holds, a run puts on the wire the GET of
    the fetch alone, or that GET followed by one POST that notifies of
    one of the five prayers: never a second notification, and never a
    notification before the fetch. *)
Theorem at_most_two_requests (e : env) :
  (wire (snd (run e)) = [fetch_request e] \/
   exists name t,
     In name prayer_names /\
     wire (snd (run e)) = [fetch_request e; push_request e name t]) /\
  (List.length (sent (snd (run e))) <= 1)%nat.
Proof.
  destruct (fetched_cases e) as [Hn | [prayers Hf]].
  - destruct (fetched_absent_run e Hn) as (l & _ & ->).
    split; [now left | cbn; lia].
  - rewrite (run_verdict e prayers Hf).
    destruct (loop_verdict (clock e) prayers) as [name t| |x] eqn:Hv;
      cbn [snd wire]; (split; [| cbn; lia]); try now left.
    right. exists name, t. split; [|reflexivity].
    destruct (verdict_notify _ _ _ _ Hv) as (pre & post & Hp & _).
    exact (scheduled_name _ _ _ _ _ (fetched_names e prayers Hf) Hp).
Qed.

(** X3: on a schedule whose times are ASCII text, a notification is
    never sent for a prayer that is not due.  A POST of a run notifies of
    a prayer of the fetched schedule whose time reads as an hour equal to
    the hour of the clock and a minute at most 5 away from the minute of
    the clock, and every prayer before it in the schedule was read and
    found not to match. *)
Theorem notification_is_sound (e : env) (rq : request) :
  (forall prayers,
     fetched e = Ok (Some prayers) -> forallb ascii_time prayers = true) ->
  In rq (sent (snd (run e))) ->
  exists prayers pre post name t h m,
    fetched e = Ok (Some prayers) /\
    prayers = (pre ++ (name, VStr t) :: post)%list /\
    In name prayer_names /\
    forallb (passed_over (clock e)) pre = true /\
    clock_time t = Some (h, m) /\
    hour (clock e) = h /\ Z.abs (minute (clock e) - m) <= 5 /\
    rq = push_request e name t.
Proof.
  intros _.
  destruct (fetched_cases e) as [Hn | [prayers Hf]].
  { destruct (fetched_absent_run e Hn) as (l & _ & ->). intros []. }
  rewrite (run_verdict e prayers Hf).
  destruct (loop_verdict (clock e) prayers) as [name t| |x] eqn:Hv;
    unfold sent; cbn [snd wire filter is_post fetch_request push_request In];
    [| intros [] | intros []].
  fold (topic e). fold (push_request e name t). intros [<- | []].
  destruct (verdict_notify _ _ _ _ Hv) as (pre & post & Hp & Hpre & Hd).
  unfold due in Hd. cbn [snd] in Hd.
  destruct (clock_time t) as [[h m]|] eqn:Hc; [|discriminate].
  apply matches_iff in Hd as [Hh Hm].
  exists prayers, pre, post, name, t, h, m.
  repeat split; try assumption.
  exact (scheduled_name _ _ _ _ _ (fetched_names e prayers Hf) Hp).
Qed.

Lemma notification_is_sound_witness :
  forallb ascii_time (schedule "05:00" "12:10" "15:30" "17:58" "19:20") = true /\
  fetched at_fajr
  = Ok (Some (schedule "05:00" "12:10" "15:30" "17:58" "19:20")) /\
  In (push_request at_fajr "Fajr" "05:00") (sent (snd (run at_fajr))) /\
  exists prayers pre post name t h m,
    fetched at_fajr = Ok (Some prayers) /\
    prayers = (pre ++ (name, VStr t) :: post)%list /\
    In name prayer_names /\
    forallb (passed_over (clock at_fajr)) pre = true /\
    clock_time t = Some (h, m) /\
    hour (clock at_fajr) = h /\ Z.abs (minute (clock at_fajr) - m) <= 5 /\
    push_request at_fajr "Fajr" "05:00" = push_request at_fajr name t.
Proof.
  assert (A : forall prayers,
              fetched at_fajr = Ok (Some prayers) ->
              forallb ascii_time prayers = true).
  { intros prayers H.
    change (fetched at_fajr)
      with (Ok (Some (schedule "05:00" "12:10" "15:30" "17:58" "19:20"))) in H.
    injection H as <-. reflexivity. }
  assert (H : In (push_request at_fajr "Fajr" "05:00") (sent (snd (run at_fajr))))
    by (left; reflexivity).
  split; [reflexivity|]. split; [reflexivity|]. split; [exact H|].
  exact (notification_is_sound at_fajr _ A H).
Defined.

(** X4: the loop stops reading at the first prayer that is due.  When
    the prayers before it are passed over, the run notifies of it and
    ends with exit status 0 whatever follows it in the schedule, be it a
    time that cannot be read or no string at all. *)
Theorem later_times_are_never_read (e : env) (prayers : dict)
    (pre post : list (string * pyval)) (name t : string) :
  fetched e = Ok (Some prayers) ->
  prayers = (pre ++ (name, VStr t) :: post)%list ->
  forallb (passed_over (clock e)) pre = true ->
  due (clock e) (name, VStr t) = true ->
  fst (run e) = Ok tt /\
  exit_status (fst (run e)) = 0 /\
  wire (snd (run e)) = [fetch_request e; push_request e name t] /\
  sent (snd (run e)) = [push_request e name t].
Proof.
  intros Hf -> Hp Hd.
  rewrite (run_verdict e _ Hf), (verdict_of_match _ _ _ _ _ Hp Hd).
  repeat split.
Qed.

Lemma later_times_are_never_read_witness :
  fetched annotated_at_fajr
  = Ok (Some (schedule "05:00" "12:10 (+04)" "15:30" "17:58" "19:20")) /\
  clock_time "12:10 (+04)" = None /\
  fst (run annotated_at_fajr) = Ok tt /\
  sent (snd (run annotated_at_fajr))
  = [push_request annotated_at_fajr "Fajr" "05:00"].
Proof.
  split; [reflexivity|]. split; [reflexivity|].
  destruct (later_times_are_never_read annotated_at_fajr _ []
              [("Dhuhr", VStr "12:10 (+04)"); ("Asr", VStr "15:30");
               ("Maghrib", VStr "17:58"); ("Isha", VStr "19:20")]
              "Fajr" "05:00" eq_refl eq_refl eq_refl eq_refl)
    as (H1 & _ & _ & H2).
  split; assumption.
Defined.

(** X5: [send_notification] never raises.  It issues exactly one POST
    and prints exactly one line; it returns [True] exactly when a response
    arrived whose status is no 4xx or 5xx, and then the line confirms the
    notification; otherwise it returns [False] and the line reports the
    exception. *)
Theorem send_notification_never_raises (prayer_name prayer_time : string)
    (e : env) (w : world) :
  let rq := push_request e prayer_name prayer_time in
  exists (b : bool) (l : line),
    send_notification prayer_name prayer_time e w
    = (Ok b, mkWorld (stdout w ++ [l]) (wire w ++ [rq])) /\
    (b = true <->
     exists r, network e (wire w) rq = Answer r /\
               http_error (status_code r) = false) /\
    (b = true ->
     l = [Lit ("✅ Notification sent for " ++ prayer_name ++ " at "
               ++ prayer_time)]) /\
    (b = false ->
     exists x, l = [Lit "❌ Error sending notification: "; ExnStr x]).
Proof.
  intros rq. rewrite send_notification_eq. fold rq.
  exists (delivered (network e (wire w) rq)),
         (send_report prayer_name prayer_time (network e (wire w) rq)).
  split; [reflexivity|].
  destruct (network e (wire w) rq) as [c | r]; cbn [delivered send_report].
  - split; [|split]; try discriminate; [|eauto].
    split; [discriminate | intros (r & [=] & _)].
  - destruct (http_error (status_code r)) eqn:Hs; cbn [negb].
    + split; [|split]; try discriminate; [|eauto].
      split; [discriminate | intros (r' & [= <-] & H)]. congruence.
    + split; [|split]; try discriminate; [|reflexivity].
      split; [eauto | reflexivity].
Qed.

Lemma same_requests (e e' : env) :
  (forall key, environ e' key = environ e key) ->
  fetch_request e' = fetch_request e /\
  forall name t, push_request e' name t = push_request e name t.
Proof.
  intros H. unfold fetch_request, push_request, topic, setting.
  rewrite !H. split; reflexivity.
Qed.

(** X6: what a run returns, its exit status and its requests are fixed
    by the environment variables, the clock and the reply to the fetch.
    The reply to the notification changes none of them. *)
Theorem push_reply_changes_no_outcome (e e' : env) :
  (forall key, environ e' key = environ e key) ->
  clock e' = clock e ->
  network e' [] (fetch_request e) = network e [] (fetch_request e) ->
  fst (run e') = fst (run e) /\
  exit_status (fst (run e')) = exit_status (fst (run e)) /\
  wire (snd (run e')) = wire (snd (run e)).
Proof.
  intros He Hc Hn.
  destruct (same_requests e e' He) as [Hf Hp].
  assert (F : fetched e' = fetched e) by (rewrite !fetched_eq, Hf, Hn; reflexivity).
  destruct (fetched_cases e) as [H | [prayers H]].
  - destruct (fetched_absent_run e H) as (l & _ & ->).
    rewrite <- F in H.
    destruct (fetched_absent_run e' H) as (l' & _ & ->).
    rewrite Hf. repeat split.
  - rewrite (run_verdict e prayers H).
    rewrite <- F in H. rewrite (run_verdict e' prayers H).
    rewrite Hc, Hf.
    destruct (loop_verdict (clock e) prayers) as [name t| |x];
      cbn [fst snd wire]; rewrite ?Hp; repeat split.
Qed.

Lemma push_reply_changes_no_outcome_witness :
  network push_down [fetch_request at_fajr; push_request at_fajr "Fajr" "05:00"]
          (push_request at_fajr "Fajr" "05:00")
  <> network at_fajr [fetch_request at_fajr; push_request at_fajr "Fajr" "05:00"]
             (push_request at_fajr "Fajr" "05:00") /\
  fst (run push_down) = fst (run at_fajr) /\
  wire (snd (run push_down)) = wire (snd (run at_fajr)).
Proof.
  split; [discriminate|].
  destruct (push_reply_changes_no_outcome at_fajr push_down
              (fun _ => eq_refl) eq_refl eq_refl) as (H1 & _ & H2).
  split; assumption.
Defined.

Lemma digit_of_digit_char (d : Z) :
  0 <= d <= 9 -> Py.digit_of (Py.digit_char d) = Some d.
Proof.
  intros H.
  assert (C : d = 0 \/ d = 1 \/ d = 2 \/ d = 3 \/ d = 4 \/ d = 5 \/ d = 6
              \/ d = 7 \/ d = 8 \/ d = 9) by lia.
  repeat (destruct C as [-> | C]; [reflexivity|]). subst d. reflexivity.
Qed.

(** X7: the time a run prints, [%H:%M] of the clock, is a well-formed
    [HH:MM] string, and the loop reads it back as the hour and the minute
    of the clock.  So a prayer scheduled at exactly the printed time is
    notified whenever the loop reaches it. *)
Theorem printed_time_reads_back (now : datetime) :
  0 <= hour now < 24 ->
  0 <= minute now < 60 ->
  let current_time :=
    Py.two_digits (hour now) ++ ":" ++ Py.two_digits (minute now) in
  is_hhmm current_time = true /\
  clock_time current_time = Some (hour now, minute now) /\
  forall name rest e w,
    check_each now ((name, VStr current_time) :: rest) e w
    = notify name current_time e w.
Proof.
  intros Hh Hm current_time.
  assert (D : forall n, 0 <= n < 100 ->
              Py.digit_of (Py.digit_char (n / 10)) = Some (n / 10) /\
              Py.digit_of (Py.digit_char (n mod 10)) = Some (n mod 10)).
  { intros n Hn. split; apply digit_of_digit_char.
    - assert (n / 10 < 10) by (apply Z.div_lt_upper_bound; lia).
      assert (0 <= n / 10) by (apply Z.div_pos; lia).
      lia.
    - pose proof (Z.mod_pos_bound n 10). lia. }
  destruct (D (hour now)) as [H1 H2]; [lia|].
  destruct (D (minute now)) as [M1 M2]; [lia|].
  assert (C : clock_time current_time = Some (hour now, minute now)).
  { subst current_time. unfold Py.two_digits. cbn [append].
    rewrite (hhmm_clock_time _ _ _ _ _ _ _ _ H1 H2 M1 M2).
    f_equal. f_equal.
    - pose proof (Z.div_mod (hour now) 10). lia.
    - pose proof (Z.div_mod (minute now) 10). lia. }
  split; [|split; [exact C|]].
  - subst current_time. unfold Py.two_digits. cbn [append is_hhmm].
    unfold is_digit. rewrite H1, H2, M1, M2. reflexivity.
  - intros name rest e w. apply check_each_due. unfold due. cbn [snd].
    rewrite C. apply matches_iff. split; [reflexivity|].
    rewrite Z.sub_diag. cbn. lia.
Qed.

Lemma printed_time_reads_back_witness :
  Py.two_digits 5 ++ ":" ++ Py.two_digits 3 = "05:03" /\
  clock_time "05:03" = Some (5, 3).
Proof.
  split; [reflexivity|].
  refine (proj1 (proj2 (printed_time_reads_back (mkDatetime 5 3) _ _)));
    cbn; lia.
Defined.

Lemma split_length (sep : ascii) (s : string) :
  List.length (Py.split sep s) = S (count_char sep s).
Proof.
  induction s as [|c s IH]; [reflexivity|].
  cbn [Py.split count_char].
  destruct (Ascii.eqb c sep).
  - cbn [List.length]. now rewrite IH.
  - destruct (Py.split sep s) as [|p ps]; [discriminate|].
    cbn [List.length] in *. now rewrite IH.
Qed.

(** X8: splitting a time at its colons gives one part more than it has
    colons, and the loop wants exactly two parts: a time with no colon or
    with more than one (say, with seconds) stops the loop with a
    [ValueError], whatever its parts are. *)
Theorem time_needs_one_colon (t : string) (now : datetime) (name : string)
    (rest : list (string * pyval)) (e : env) (w : world) :
  count_char ":" t <> 1%nat ->
  List.length (Py.split ":" t) = S (count_char ":" t) /\
  parse_time t e w = (Raise ValueError, w) /\
  check_each now ((name, VStr t) :: rest) e w = (Raise ValueError, w).
Proof.
  intros Hc. pose proof (split_length ":" t) as Hl.
  assert (C : clock_time t = None).
  { unfold clock_time.
    destruct (Py.split ":" t) as [|a [|b [|? ?]]]; try reflexivity.
    cbn [List.length] in Hl. congruence. }
  split; [exact Hl|]. split.
  - now rewrite parse_time_eq, C.
  - now apply check_each_malformed.
Qed.

Lemma time_needs_one_colon_witness :
  count_char ":" "05:00:00" = 2%nat /\
  parse_time "05:00:00" at_fajr start = (Raise ValueError, start).
Proof.
  split; [reflexivity|].
  refine (proj1 (proj2 (time_needs_one_colon "05:00:00" (mkDatetime 5 0) "Fajr"
                          [] at_fajr start _))).
  cbn. lia.
Defined.

Lemma get_prayer_times_unfold (e : env) (w : world) :
  get_prayer_times e w =
  try_except
    (response <- http (fetch_request e) ;;
     raise_for_status response ;;
     data <- response_json response ;;
     code <- getitem data "code" ;;
     if Py.eq_int code 200 then
       data' <- getitem data "data" ;;
       timings <- getitem data' "timings" ;;
       fajr <- getitem timings "Fajr" ;;
       dhuhr <- getitem timings "Dhuhr" ;;
       asr <- getitem timings "Asr" ;;
       maghrib <- getitem timings "Maghrib" ;;
       isha <- getitem timings "Isha" ;;
       ret (Some (Py.dict_display
                    [("Fajr", fajr); ("Dhuhr", dhuhr); ("Asr", asr);
                     ("Maghrib", maghrib); ("Isha", isha)]))
     else
       code' <- getitem data "code" ;;
       print [Lit "API returned error code: "; Str code'] ;;
       ret None)
    (fun x =>
       print [Lit "Error fetching prayer times: "; ExnStr x] ;;
       ret None)
    e w.
Proof. reflexivity. Qed.

(** X9: the line a failed fetch prints names the cause.  A failed
    transport is reported with its exception; an error status with
    [HTTPError], whatever the body; a body that is no JSON with
    [JSONDecodeError]; a status code field other than 200 is printed as
    the API error code; and when the timings object lacks one of the five
    prayer names, the first missing one, in the order Fajr to Isha, is
    reported as a [KeyError]. *)
Theorem fetch_diagnostic_names_the_cause (e : env) (w : world) :
  let rq := fetch_request e in
  let rp := network e (wire w) rq in
  let failed (l : line) :=
    get_prayer_times e w
    = (Ok None, mkWorld (stdout w ++ [l]) (wire w ++ [rq])) in
  let error (x : exn) := [Lit "Error fetching prayer times: "; ExnStr x] in
  (forall c, rp = Failed c -> failed (error (transport_exn c))) /\
  (forall r,
     rp = Answer r -> http_error (status_code r) = true ->
     failed (error (HTTPError (status_code r)))) /\
  (forall r,
     rp = Answer r -> http_error (status_code r) = false ->
     json_body r = None ->
     failed (error JSONDecodeError)) /\
  (forall r data code,
     rp = Answer r -> http_error (status_code r) = false ->
     json_body r = Some data -> field data "code" = Some code ->
     Py.eq_int code 200 = false ->
     failed [Lit "API returned error code: "; Str code]) /\
  (forall r data code timings name,
     rp = Answer r -> http_error (status_code r) = false ->
     json_body r = Some data -> field data "code" = Some code ->
     Py.eq_int code 200 = true ->
     timings_of data = Some (VDict timings) ->
     first_missing timings = Some name ->
     failed (error (KeyError name))).
Proof.
  intros rq rp failed error. subst failed error. cbv beta.
  rewrite get_prayer_times_unfold.
  unfold try_except, bind, http. cbn beta iota zeta. fold rq. fold rp.
  clearbody rp. repeat split.
  - intros c ->. destruct c; reflexivity.
  - intros r -> Hs. unfold bind, raise_for_status. cbn beta iota zeta.
    rewrite Hs. reflexivity.
  - intros r -> Hs Hj. unfold bind, raise_for_status, response_json.
    cbn beta iota zeta. rewrite Hs, Hj. reflexivity.
  - intros r data code -> Hs Hj Hc Hn.
    unfold bind, raise_for_status, response_json. cbn beta iota zeta.
    rewrite Hs, Hj. unfold ret at 1 2. cbn beta iota zeta.
    rewrite getitem_eq, Hc, Hn. rewrite getitem_eq, Hc. reflexivity.
  - intros r data code timings name -> Hs Hj Hc H2 Ht Hm.
    unfold bind, raise_for_status, response_json. cbn beta iota zeta.
    rewrite Hs, Hj. unfold ret at 1 2. cbn beta iota zeta.
    rewrite getitem_eq, Hc, H2.
    unfold timings_of in Ht.
    destruct (field data "data") as [d|] eqn:Hd; [|discriminate].
    rewrite getitem_eq, Hd. rewrite getitem_eq, Ht.
    unfold first_missing, prayer_names in Hm. cbn [find] in Hm.
    rewrite !getitem_eq. cbn [field].
    destruct (Py.dict_get timings "Fajr"); [|injection Hm as <-; reflexivity].
    destruct (Py.dict_get timings "Dhuhr"); [|injection Hm as <-; reflexivity].
    destruct (Py.dict_get timings "Asr"); [|injection Hm as <-; reflexivity].
    destruct (Py.dict_get timings "Maghrib"); [|injection Hm as <-; reflexivity].
    destruct (Py.dict_get timings "Isha"); [|injection Hm as <-; reflexivity].
    discriminate.
Qed.

Lemma fetch_diagnostic_names_the_cause_witness :
  first_missing [("Fajr", VStr "05:00"); ("Dhuhr", VStr "12:10");
                 ("Asr", VStr "15:30"); ("Maghrib", VStr "17:58")]
  = Some "Isha" /\
  get_prayer_times no_isha start
  = (Ok None,
     mkWorld [[Lit "Error fetching prayer times: "; ExnStr (KeyError "Isha")]]
             [fetch_request no_isha]).
Proof.
  split; [reflexivity|].
  exact (proj2 (proj2 (proj2 (proj2 (fetch_diagnostic_names_the_cause no_isha start))))
           _ _ (VInt 200) _ "Isha"
           eq_refl eq_refl eq_refl eq_refl eq_refl eq_refl eq_refl).
Defined.

(** X10: the configuration is what the process environment holds, taken
    as it is.  With none of the four variables set, the fetch asks for
    latitude 25.3463, longitude 55.4209 and method 4, and the notification
    goes to the topic your-unique-topic-name; a variable that is set is
    used verbatim in the query and in the push address, with no check of
    its value. *)
Theorem configuration_from_environment (e : env) (w : world)
    (prayer_name prayer_time : string) :
  (environ e "LATITUDE" = None -> environ e "LONGITUDE" = None ->
   environ e "CALCULATION_METHOD" = None -> environ e "NTFY_TOPIC" = None ->
   wire (snd (get_prayer_times e w))
   = (wire w ++
      [GET "http://api.aladhan.com/v1/timings"
           [("latitude", "25.3463"); ("longitude", "55.4209"); ("method", "4")]
           10])%list /\
   wire (snd (send_notification prayer_name prayer_time e w))
   = (wire w ++
      [POST "https://ntfy.sh/your-unique-topic-name"
            (notification "your-unique-topic-name" prayer_name prayer_time)
            10])%list) /\
  (forall latitude longitude method ntfy_topic,
     environ e "LATITUDE" = Some latitude ->
     environ e "LONGITUDE" = Some longitude ->
     environ e "CALCULATION_METHOD" = Some method ->
     environ e "NTFY_TOPIC" = Some ntfy_topic ->
     wire (snd (get_prayer_times e w))
     = (wire w ++
        [GET "http://api.aladhan.com/v1/timings"
             [("latitude", latitude); ("longitude", longitude);
              ("method", method)]
             10])%list /\
     wire (snd (send_notification prayer_name prayer_time e w))
     = (wire w ++
        [POST ("https://ntfy.sh/" ++ ntfy_topic)%string
              (notification ntfy_topic prayer_name prayer_time)
              10])%list).
Proof.
  destruct (get_prayer_times_eq e w) as (ls & -> & _).
  rewrite send_notification_eq. cbn [snd wire].
  unfold fetch_request, push_request, topic, setting.
  split.
  - intros -> -> -> ->. split; reflexivity.
  - intros latitude longitude method ntfy_topic -> -> -> ->.
    split; reflexivity.
Qed.

Lemma configuration_from_environment_witness :
  wire (snd (get_prayer_times at_fajr start))
  = [GET "http://api.aladhan.com/v1/timings"
         [("latitude", "25.3463"); ("longitude", "55.4209"); ("method", "4")]
         10].
Proof.
  exact (proj1 (proj1 (configuration_from_environment at_fajr start "Fajr" "05:00")
                  eq_refl eq_refl eq_refl eq_refl)).
Defined.
